(** * hls4ml FPGA backend types: precision dialects, type wrappers, variables

    A shallow embedding of [hls4ml/backends/fpga/fpga_types.py].

    Python objects live in a store and are named by their location, so that
    "the same object" and "a new object" are different things.  Every method
    is a computation over that store which either returns a value or raises. *)

From Stdlib Require Import ZArith String.
From stdpp Require Import base option list strings pretty.

Local Open Scope Z_scope.
Local Open Scope string_scope.

(** ** Python values used by the module *)

(** [str(n)] for an [int]. *)
Definition str_int (n : Z) : string := pretty n.

(** [str(b).lower()] for a [bool]. *)
Definition str_bool_lower (b : bool) : string :=
  if b then "true" else "false".

(** [sep.join(parts)]. *)
Definition join (sep : string) (parts : list string) : string :=
  String.concat sep parts.

(** [s.startswith(p)]. *)
Definition startswith (s p : string) : bool := String.prefix p s.

(** [[x for x in args if x is not None]]. *)
Definition drop_None {A} (args : list (option A)) : list A := omap id args.

(** Exceptions raised in the module, or by the Python operations it uses. *)
Inductive PyErr :=
  | Exception (msg : string)
  | NotImplementedError
  | AssertionError (msg : string)
  | AttributeError (attr : string)
  | IndexError
  | OutOfModel.     (* a dangling location, or an attribute holding an object of
                       another sort than upstream stores there *)

(** ** Precision objects *)

(** The classes a precision object can have: the four abstract kinds of
    [hls4ml.model.hls_types], their eight dialect subclasses defined here,
    and any other class, known by its [__name__] only. *)
Inductive PrecisionClass :=
  | XnorPrecisionType
  | IntegerPrecisionType
  | ExponentPrecisionType
  | FixedPrecisionType
  | APIntegerPrecisionType
  | APFixedPrecisionType
  | APXnorPrecisionType
  | APExponentPrecisionType
  | ACIntegerPrecisionType
  | ACFixedPrecisionType
  | ACXnorPrecisionType
  | ACExponentPrecisionType
  | OtherPrecisionClass (name : string).

#[global] Instance PrecisionClass_eq_dec : EqDecision PrecisionClass.
Proof. solve_decision. Defined.

(** [cls.__name__]. *)
Definition class_name (c : PrecisionClass) : string :=
  match c with
  | XnorPrecisionType => "XnorPrecisionType"
  | IntegerPrecisionType => "IntegerPrecisionType"
  | ExponentPrecisionType => "ExponentPrecisionType"
  | FixedPrecisionType => "FixedPrecisionType"
  | APIntegerPrecisionType => "APIntegerPrecisionType"
  | APFixedPrecisionType => "APFixedPrecisionType"
  | APXnorPrecisionType => "APXnorPrecisionType"
  | APExponentPrecisionType => "APExponentPrecisionType"
  | ACIntegerPrecisionType => "ACIntegerPrecisionType"
  | ACFixedPrecisionType => "ACFixedPrecisionType"
  | ACXnorPrecisionType => "ACXnorPrecisionType"
  | ACExponentPrecisionType => "ACExponentPrecisionType"
  | OtherPrecisionClass name => name
  end.

(** The attributes only a fixed-point precision defines. *)
Record FixedFields := {
  integer : Z;
  rounding_mode : option string;     (* [str(mode)] of the enum member *)
  saturation_mode : option string;
  saturation_bits : option Z
}.

Record PrecisionObj := {
  p_class : PrecisionClass;
  width : Z;
  signed : bool;
  fixed : option FixedFields
}.

(** Modelled from the spec: the constructors of the abstract kinds, which live
    in [hls4ml.model.hls_types].  Integer, Exponent and Xnor store [width] and
    [signed]; Fixed stores the six fields it is given; Xnor takes no argument
    and is a single unsigned bit. *)
Definition new_int_like (cls : PrecisionClass) (w : Z) (s : bool) : PrecisionObj :=
  {| p_class := cls; width := w; signed := s; fixed := None |}.

Definition new_fixed (cls : PrecisionClass) (w i : Z) (s : bool)
    (rm sm : option string) (sb : option Z) : PrecisionObj :=
  {| p_class := cls; width := w; signed := s;
     fixed := Some {| integer := i; rounding_mode := rm;
                      saturation_mode := sm; saturation_bits := sb |} |}.

Definition new_xnor (cls : PrecisionClass) : PrecisionObj :=
  new_int_like cls 1 false.

(** *** Dialect renderers *)

Definition APIntegerPrecisionType_definition_cpp (self : PrecisionObj) : string :=
  "ap_" ++ (if negb (signed self) then "u" else "") ++ "int<"
        ++ str_int (width self) ++ ">".

Definition AP_rounding_mode_cpp (mode : option string) : option string :=
  match mode with Some m => Some ("AP_" ++ m) | None => None end.

Definition AP_saturation_mode_cpp (mode : option string) : option string :=
  match mode with Some m => Some ("AP_" ++ m) | None => None end.

Definition APFixedPrecisionType_definition_cpp
    (self : PrecisionObj) (f : FixedFields) : string :=
  let args := [ Some (str_int (width self)); Some (str_int (integer f));
                AP_rounding_mode_cpp (rounding_mode f);
                AP_saturation_mode_cpp (saturation_mode f);
                str_int <$> saturation_bits f ] in
  let args := join "," (drop_None args) in
  "ap_" ++ (if negb (signed self) then "u" else "") ++ "fixed<" ++ args ++ ">".

Definition ACIntegerPrecisionType_definition_cpp (self : PrecisionObj) : string :=
  "ac_int<" ++ str_int (width self) ++ ", " ++ str_bool_lower (signed self) ++ ">".

Definition AC_rounding_mode_cpp (mode : option string) : option string :=
  match mode with Some m => Some ("AC_" ++ m) | None => None end.

Definition AC_saturation_mode_cpp (mode : option string) : option string :=
  match mode with Some m => Some ("AC_" ++ m) | None => None end.

Definition ACFixedPrecisionType_definition_cpp
    (self : PrecisionObj) (f : FixedFields) : string :=
  let args := [ Some (str_int (width self)); Some (str_int (integer f));
                Some (str_bool_lower (signed self));
                AC_rounding_mode_cpp (rounding_mode f);
                AC_saturation_mode_cpp (saturation_mode f);
                str_int <$> saturation_bits f ] in
  let args := join "," (drop_None args) in
  "ac_fixed<" ++ args ++ ">".

(** [precision.definition_cpp()], resolved on the object's class.  The Xnor
    and Exponent classes of a dialect reuse its Integer renderer.  A class
    outside the eight dialect classes has no [definition_cpp] in this module. *)
Definition precision_definition_cpp (self : PrecisionObj) : PyErr + string :=
  match p_class self with
  | APIntegerPrecisionType | APXnorPrecisionType | APExponentPrecisionType =>
      inr (APIntegerPrecisionType_definition_cpp self)
  | APFixedPrecisionType =>
      match fixed self with
      | Some f => inr (APFixedPrecisionType_definition_cpp self f)
      | None => inl (AttributeError "integer")
      end
  | ACIntegerPrecisionType | ACXnorPrecisionType | ACExponentPrecisionType =>
      inr (ACIntegerPrecisionType_definition_cpp self)
  | ACFixedPrecisionType =>
      match fixed self with
      | Some f => inr (ACFixedPrecisionType_definition_cpp self f)
      | None => inl (AttributeError "integer")
      end
  | _ => inl (AttributeError "definition_cpp")
  end.

(** ** Named types *)

Definition loc := nat.

(** The named-type classes: the four of [hls4ml.model.hls_types] and the four
    subclasses defined here. *)
Inductive TypeClass :=
  | NamedType
  | CompressedType
  | ExponentType
  | PackedType
  | HLSType
  | HLSCompressedType
  | HLSExponentType
  | HLSPackedType.

#[global] Instance TypeClass_eq_dec : EqDecision TypeClass.
Proof. solve_decision. Defined.

Definition type_class_name (c : TypeClass) : string :=
  match c with
  | NamedType => "NamedType"
  | CompressedType => "CompressedType"
  | ExponentType => "ExponentType"
  | PackedType => "PackedType"
  | HLSType => "HLSType"
  | HLSCompressedType => "HLSCompressedType"
  | HLSExponentType => "HLSExponentType"
  | HLSPackedType => "HLSPackedType"
  end.

(** The direct base class; [None] stands for a base outside the type classes.
    The composite classes derive from [NamedType] (spec, section 4.4). *)
Definition type_base (c : TypeClass) : option TypeClass :=
  match c with
  | NamedType => None
  | CompressedType | ExponentType | PackedType | HLSType => Some NamedType
  | HLSCompressedType => Some CompressedType
  | HLSExponentType => Some ExponentType
  | HLSPackedType => Some PackedType
  end.

(** [issubclass(c, target)]; the hierarchy is two levels deep. *)
Definition issubclass (c target : TypeClass) : bool :=
  bool_decide (c = target)
  || match type_base c with
     | Some b => bool_decide (b = target)
                 || match type_base b with
                    | Some b' => bool_decide (b' = target)
                    | None => false
                    end
     | None => false
     end.

(** The attributes only a packed type defines. *)
Record PackedFields := {
  n_elem : Z;
  n_pack : Z;
  unpack : bool
}.

Record TypeObj := {
  t_class : TypeClass;
  t_name : string;
  t_precision : loc;
  t_index_precision : option loc;    (* compressed types only *)
  t_packed : option PackedFields     (* packed types only *)
}.

(** ** Variables *)

Inductive TensorClass :=
  | TensorVariable
  | ArrayVariable
  | VivadoArrayVariable
  | QuartusArrayVariable
  | StructMemberVariable
  | StreamVariable.

#[global] Instance TensorClass_eq_dec : EqDecision TensorClass.
Proof. solve_decision. Defined.

Definition tensor_class_name (c : TensorClass) : string :=
  match c with
  | TensorVariable => "TensorVariable"
  | ArrayVariable => "ArrayVariable"
  | VivadoArrayVariable => "VivadoArrayVariable"
  | QuartusArrayVariable => "QuartusArrayVariable"
  | StructMemberVariable => "StructMemberVariable"
  | StreamVariable => "StreamVariable"
  end.

(** The [pragma] attribute: a name for arrays, the pair [('stream', depth)]
    for streams. *)
Inductive Pragma :=
  | PragmaName (p : string)
  | PragmaStream (depth : Z).

Record TensorObj := {
  v_class : TensorClass;
  v_shape : list Z;
  v_dim_names : list string;
  v_name : string;
  v_cppname : string;
  v_type : loc;
  v_pragma : option Pragma;          (* set by the subclasses *)
  v_struct_name : option string;     (* struct members only *)
  v_member_name : option string      (* struct members only *)
}.

Inductive WeightClass :=
  | WeightVariable
  | StaticWeightVariable
  | BramWeightVariable.

#[global] Instance WeightClass_eq_dec : EqDecision WeightClass.
Proof. solve_decision. Defined.

Definition weight_class_name (c : WeightClass) : string :=
  match c with
  | WeightVariable => "WeightVariable"
  | StaticWeightVariable => "StaticWeightVariable"
  | BramWeightVariable => "BramWeightVariable"
  end.

Record WeightObj := {
  w_class : WeightClass;
  w_name : string;
  w_cppname : string;
  w_type : loc;
  w_data : list Z;                   (* the payload, flattened *)
  w_data_length : Z;
  w_quantizer : option string;
  w_weight_class : option string     (* set by [StaticWeightVariable] *)
}.

(** ** The object store *)

Inductive Obj :=
  | OPrecision (p : PrecisionObj)
  | OType (t : TypeObj)
  | OTensor (v : TensorObj)
  | OWeight (w : WeightObj).

Definition heap := list Obj.

(** [type(o).__name__]. *)
Definition obj_class_name (o : Obj) : string :=
  match o with
  | OPrecision p => class_name (p_class p)
  | OType t => type_class_name (t_class t)
  | OTensor v => tensor_class_name (v_class v)
  | OWeight w => weight_class_name (w_class w)
  end.

(** ** Computations: a store is threaded, an exception stops the rest *)

Definition M (A : Type) : Type := heap -> (PyErr + A) * heap.

Definition ret {A} (a : A) : M A := fun h => (inr a, h).

Definition bind {A B} (m : M A) (k : A -> M B) : M B :=
  fun h => match m h with
           | (inr a, h') => k a h'
           | (inl e, h') => (inl e, h')
           end.

Definition raise {A} (e : PyErr) : M A := fun h => (inl e, h).

Notation "x <- m ;; k" := (bind m (fun x => k))
  (at level 100, m at next level, right associativity).

(** A method result that needs no store. *)
Definition lift {A} (r : PyErr + A) : M A :=
  match r with inr a => ret a | inl e => raise e end.

(** Creating an object: it gets the next free location. *)
Definition alloc (o : Obj) : M loc := fun h => (inr (length h), (h ++ [o])%list).

Definition load (l : loc) : M Obj :=
  fun h => match h !! l with
           | Some o => (inr o, h)
           | None => (inl OutOfModel, h)
           end.

(** Reading an attribute an object may lack. *)
Definition attr {A} (name : string) (a : option A) : M A :=
  match a with Some x => ret x | None => raise (AttributeError name) end.

(** *** Precision class methods [from_precision] *)

Definition fixed_attr (p : PrecisionObj) : M FixedFields := attr "integer" (fixed p).

Definition APIntegerPrecisionType_from_precision (precision_type : PrecisionObj) : M loc :=
  alloc (OPrecision (new_int_like APIntegerPrecisionType
                       (width precision_type) (signed precision_type))).

Definition APFixedPrecisionType_from_precision (precision_type : PrecisionObj) : M loc :=
  f <- fixed_attr precision_type ;;
  alloc (OPrecision (new_fixed APFixedPrecisionType
                       (width precision_type) (integer f) (signed precision_type)
                       (rounding_mode f) (saturation_mode f) (saturation_bits f))).

Definition APXnorPrecisionType_from_precision (precision_type : PrecisionObj) : M loc :=
  alloc (OPrecision (new_xnor APXnorPrecisionType)).

Definition APExponentPrecisionType_from_precision (precision_type : PrecisionObj) : M loc :=
  alloc (OPrecision (new_int_like APExponentPrecisionType
                       (width precision_type) (signed precision_type))).

Definition ACIntegerPrecisionType_from_precision (precision_type : PrecisionObj) : M loc :=
  alloc (OPrecision (new_int_like ACIntegerPrecisionType
                       (width precision_type) (signed precision_type))).

Definition ACFixedPrecisionType_from_precision (precision_type : PrecisionObj) : M loc :=
  f <- fixed_attr precision_type ;;
  alloc (OPrecision (new_fixed ACFixedPrecisionType
                       (width precision_type) (integer f) (signed precision_type)
                       (rounding_mode f) (saturation_mode f) (saturation_bits f))).

Definition ACXnorPrecisionType_from_precision (precision_type : PrecisionObj) : M loc :=
  alloc (OPrecision (new_xnor ACXnorPrecisionType)).

Definition ACExponentPrecisionType_from_precision (precision_type : PrecisionObj) : M loc :=
  alloc (OPrecision (new_int_like ACExponentPrecisionType
                       (width precision_type) (signed precision_type))).

(** *** Precision converters *)

(** The class an object is compared with in [type_cls == C]: only a precision
    object can be of a precision class. *)
Definition precision_class_of (o : Obj) : option PrecisionClass :=
  match o with OPrecision p => Some (p_class p) | _ => None end.

Definition APTypeConverter_convert (precision_type : loc) : M loc :=
  o <- load precision_type ;;
  (* If the type is already converted, do nothing *)
  if startswith (obj_class_name o) "AP" then ret precision_type
  else
    match o with
    | OPrecision p =>
        let type_cls := p_class p in
        if decide (type_cls = XnorPrecisionType)
        then APXnorPrecisionType_from_precision p
        else if decide (type_cls = IntegerPrecisionType)
        then APIntegerPrecisionType_from_precision p
        else if decide (type_cls = ExponentPrecisionType)
        then APExponentPrecisionType_from_precision p
        else if decide (type_cls = FixedPrecisionType)
        then APFixedPrecisionType_from_precision p
        else raise (Exception ("Cannot convert precision type to AP: "
                               ++ obj_class_name o))
    | _ => raise (Exception ("Cannot convert precision type to AP: "
                             ++ obj_class_name o))
    end.

Definition ACTypeConverter_convert (precision_type : loc) : M loc :=
  o <- load precision_type ;;
  (* If the type is already converted, do nothing *)
  if startswith (obj_class_name o) "AC" then ret precision_type
  else
    match o with
    | OPrecision p =>
        let type_cls := p_class p in
        if decide (type_cls = XnorPrecisionType)
        then ACXnorPrecisionType_from_precision p
        else if decide (type_cls = IntegerPrecisionType)
        then ACIntegerPrecisionType_from_precision p
        else if decide (type_cls = ExponentPrecisionType)
        then ACExponentPrecisionType_from_precision p
        else if decide (type_cls = FixedPrecisionType)
        then ACFixedPrecisionType_from_precision p
        else raise (Exception ("Cannot convert precision type to AC: "
                               ++ obj_class_name o))
    | _ => raise (Exception ("Cannot convert precision type to AC: "
                             ++ obj_class_name o))
    end.

(** The converter classes; [convert] is resolved on the converter's class and
    the base class does not implement it. *)
Inductive PrecisionConverter :=
  | PrecisionTypeConverter
  | APTypeConverter
  | ACTypeConverter.

Definition convert (self : PrecisionConverter) (precision_type : loc) : M loc :=
  match self with
  | PrecisionTypeConverter => raise NotImplementedError
  | APTypeConverter => APTypeConverter_convert precision_type
  | ACTypeConverter => ACTypeConverter_convert precision_type
  end.

Definition load_precision (l : loc) : M PrecisionObj :=
  o <- load l ;;
  match o with OPrecision p => ret p | _ => raise OutOfModel end.

Definition load_type (l : loc) : M TypeObj :=
  o <- load l ;;
  match o with OType t => ret t | _ => raise OutOfModel end.

(** ** Named-type wrappers *)

(** The line feed that ends every typedef, and the double quote. *)
Definition nl : string := String (Ascii.ascii_of_nat 10) EmptyString.
Definition dquote : string := String (Ascii.ascii_of_nat 34) EmptyString.

(** Modelled from the spec: the constructors of [NamedType], [ExponentType]
    and [CompressedType] ([hls4ml.model.hls_types]) store the fields they are
    given (spec, section 3). *)
Definition new_named (cls : TypeClass) (name : string) (precision : loc) : TypeObj :=
  {| t_class := cls; t_name := name; t_precision := precision;
     t_index_precision := None; t_packed := None |}.

Definition new_compressed (cls : TypeClass) (name : string)
    (precision index_precision : loc) : TypeObj :=
  {| t_class := cls; t_name := name; t_precision := precision;
     t_index_precision := Some index_precision; t_packed := None |}.

(** [self.precision.definition_cpp()]. *)
Definition precision_cpp (precision : loc) : M string :=
  p <- load_precision precision ;;
  lift (precision_definition_cpp p).

Section HlsTypes.

(** What this module uses of [hls4ml.model.hls_types] without defining it:
    [str(p)] of a precision object (the [__str__] the abstract kinds define
    and the dialect classes inherit), the packed fields the [PackedType]
    constructor derives from its [n_elem] and [n_pack] arguments, and the
    [cppname] a variable derives from its name. *)
Variable precision_str : PrecisionObj -> string.
Variable PackedType_fields : Z -> Z -> PackedFields.
Variable cppname_of : string -> string.

Definition new_packed (cls : TypeClass) (name : string) (precision : loc)
    (n_elem n_pack : Z) : TypeObj :=
  {| t_class := cls; t_name := name; t_precision := precision;
     t_index_precision := None;
     t_packed := Some (PackedType_fields n_elem n_pack) |}.

Definition HLSType_definition_cpp (self : TypeObj) : M string :=
  precision <- precision_cpp (t_precision self) ;;
  ret ("typedef " ++ precision ++ " " ++ t_name self ++ ";" ++ nl).

Definition HLSType_from_type (type : TypeObj)
    (precision_converter : PrecisionConverter) : M loc :=
  precision <- convert precision_converter (t_precision type) ;;
  alloc (OType (new_named HLSType (t_name type) precision)).

Definition HLSCompressedType_definition_cpp (self : TypeObj) : M string :=
  index_precision <- attr "index_precision" (t_index_precision self) ;;
  precision <- precision_cpp (t_precision self) ;;
  index_obj <- load_precision index_precision ;;
  let index := precision_str index_obj in
  ret ("typedef struct " ++ t_name self ++ " {"
       ++ index ++ " row_index;"
       ++ index ++ " col_index;"
       ++ precision ++ " weight; } " ++ t_name self ++ ";" ++ nl).

Definition HLSCompressedType_from_type (type : TypeObj)
    (precision_converter : PrecisionConverter) : M loc :=
  precision <- convert precision_converter (t_precision type) ;;
  index_precision <- attr "index_precision" (t_index_precision type) ;;
  alloc (OType (new_compressed HLSCompressedType (t_name type)
                  precision index_precision)).

Definition HLSExponentType_definition_cpp (self : TypeObj) : M string :=
  precision <- precision_cpp (t_precision self) ;;
  let sign := precision_str (new_xnor XnorPrecisionType) in
  ret ("typedef struct " ++ t_name self ++ " {"
       ++ sign ++ " sign;"
       ++ precision ++ " weight; } " ++ t_name self ++ ";" ++ nl).

Definition HLSExponentType_from_type (type : TypeObj)
    (precision_converter : PrecisionConverter) : M loc :=
  precision <- convert precision_converter (t_precision type) ;;
  alloc (OType (new_named HLSExponentType (t_name type) precision)).

(** The text between the comma and the closing bracket of the packed
    typedef: [str(self.n_elem) + n_elem_expr + str(self.n_pack)]. *)
Definition HLSPackedType_n_elem (f : PackedFields) : string :=
  let n_elem_expr := if unpack f then "/" else "*" in
  str_int (n_elem f) ++ n_elem_expr ++ str_int (n_pack f).

Definition HLSPackedType_definition_cpp (self : TypeObj) : M string :=
  f <- attr "unpack" (t_packed self) ;;
  precision <- precision_cpp (t_precision self) ;;
  ret ("typedef nnet::array<" ++ precision ++ ", " ++ HLSPackedType_n_elem f
       ++ "> " ++ t_name self ++ ";" ++ nl).

Definition HLSPackedType_from_type (type : TypeObj)
    (precision_converter : PrecisionConverter) : M loc :=
  precision <- convert precision_converter (t_precision type) ;;
  f <- attr "n_elem" (t_packed type) ;;
  alloc (OType (new_packed HLSPackedType (t_name type) precision
                  (n_elem f) (n_pack f))).

(** [type.definition_cpp()], resolved on the object's class.  Modelled from
    the spec for the four classes of [hls4ml.model.hls_types]: only the
    wrappers render (section 4.3). *)
Definition type_definition_cpp (type : loc) : M string :=
  self <- load_type type ;;
  match t_class self with
  | HLSType => HLSType_definition_cpp self
  | HLSCompressedType => HLSCompressedType_definition_cpp self
  | HLSExponentType => HLSExponentType_definition_cpp self
  | HLSPackedType => HLSPackedType_definition_cpp self
  | _ => raise (AttributeError "definition_cpp")
  end.

(** *** Type converter *)

Record HLSTypeConverter := { precision_converter : PrecisionConverter }.

Definition HLSTypeConverter_convert (self : HLSTypeConverter) (type : loc) : M loc :=
  o <- load type ;;
  match o with
  | OType t =>
      if issubclass (t_class t) PackedType
      then HLSPackedType_from_type t (precision_converter self)
      else if issubclass (t_class t) CompressedType
      then HLSCompressedType_from_type t (precision_converter self)
      else if issubclass (t_class t) ExponentType
      then HLSExponentType_from_type t (precision_converter self)
      else if issubclass (t_class t) NamedType
      then HLSType_from_type t (precision_converter self)
      else raise (Exception ("Unknown type: " ++ obj_class_name o))
  | _ => raise (Exception ("Unknown type: " ++ obj_class_name o))
  end.

(** ** Variables *)

Definition load_tensor (l : loc) : M TensorObj :=
  o <- load l ;;
  match o with
  | OTensor v => ret v
  | OWeight _ => raise (AttributeError "shape")
  | _ => raise OutOfModel
  end.

Definition load_weight (l : loc) : M WeightObj :=
  o <- load l ;;
  match o with
  | OWeight w => ret w
  | OTensor _ => raise (AttributeError "data")
  | _ => raise OutOfModel
  end.

(** [type(o)] compared with a variable class. *)
Definition tensor_class_of (o : Obj) : option TensorClass :=
  match o with OTensor v => Some (v_class v) | _ => None end.

Definition weight_class_of (o : Obj) : option WeightClass :=
  match o with OWeight w => Some (w_class w) | _ => None end.

(** Modelled from the spec: [TensorVariable.__init__] of
    [hls4ml.model.hls_types], which stores shape, dimension names and name
    and owns a new [NamedType] built from the type name and the precision
    (section 3).  [cls] is the class of the object under construction. *)
Definition TensorVariable_init (cls : TensorClass) (shape : list Z)
    (dim_names : list string) (var_name type_name : string) (precision : loc)
    : M TensorObj :=
  type <- alloc (OType (new_named NamedType type_name precision)) ;;
  ret {| v_class := cls; v_shape := shape; v_dim_names := dim_names;
         v_name := var_name; v_cppname := cppname_of var_name; v_type := type;
         v_pragma := None; v_struct_name := None; v_member_name := None |}.

(** Modelled from the spec: [WeightVariable.__init__] of
    [hls4ml.model.hls_types]; [data_length] is the flattened element count
    of the payload (section 4.5). *)
Definition WeightVariable_init (cls : WeightClass) (var_name type_name : string)
    (precision : loc) (data : list Z) (quantizer : option string) : M WeightObj :=
  type <- alloc (OType (new_named NamedType type_name precision)) ;;
  ret {| w_class := cls; w_name := var_name; w_cppname := cppname_of var_name;
         w_type := type; w_data := data; w_data_length := Z.of_nat (length data);
         w_quantizer := quantizer; w_weight_class := None |}.

(** *** Arrays *)

Definition ArrayVariable_init (cls : TensorClass) (tensor_var : loc)
    (type_converter : HLSTypeConverter) (pragma : string) : M TensorObj :=
  tv <- load_tensor tensor_var ;;
  tv_type <- load_type (v_type tv) ;;
  self <- TensorVariable_init cls (v_shape tv) (v_dim_names tv) (v_name tv)
            (t_name tv_type) (t_precision tv_type) ;;
  type <- HLSTypeConverter_convert type_converter (v_type self) ;;
  ret {| v_class := v_class self; v_shape := v_shape self;
         v_dim_names := v_dim_names self; v_name := v_name self;
         v_cppname := v_cppname self; v_type := type;
         v_pragma := Some (PragmaName pragma);
         v_struct_name := v_struct_name self;
         v_member_name := v_member_name self |}.

Definition size_cpp (self : TensorObj) : string :=
  join "*" (v_dim_names self).

(** The class method is inherited by the two platform variants, so [cls] is
    [ArrayVariable], [VivadoArrayVariable] or [QuartusArrayVariable]. *)
Definition ArrayVariable_from_variable (cls : TensorClass) (tensor_var : loc)
    (type_converter : HLSTypeConverter) (pragma : string) : M loc :=
  self <- ArrayVariable_init cls tensor_var type_converter pragma ;;
  alloc (OTensor self).

Definition pragma_name (self : TensorObj) : M string :=
  match v_pragma self with
  | Some (PragmaName p) => ret p
  | Some (PragmaStream _) => raise OutOfModel
  | None => raise (AttributeError "pragma")
  end.

Definition VivadoArrayVariable_definition_cpp (self : TensorObj)
    (name_suffix : string) (as_reference : bool) : M string :=
  type <- load_type (v_type self) ;;
  ret (t_name type ++ " " ++ v_cppname self ++ name_suffix
       ++ "[" ++ size_cpp self ++ "]").

Definition QuartusArrayVariable_definition_cpp (self : TensorObj)
    (name_suffix : string) (as_reference : bool) : M string :=
  type <- load_type (v_type self) ;;
  pragma <- pragma_name self ;;
  ret (t_name type ++ " " ++ v_cppname self ++ name_suffix
       ++ "[" ++ size_cpp self ++ "] " ++ pragma).

(** *** Struct members *)

Definition StructMemberVariable_init (tensor_var : loc)
    (type_converter : HLSTypeConverter) (pragma : string)
    (struct_name : option string) : M TensorObj :=
  self <- ArrayVariable_init StructMemberVariable tensor_var type_converter pragma ;;
  match struct_name with
  | None =>
      raise (AssertionError
               "struct_name must be provided when creating StructMemberVariable")
  | Some struct_name =>
      let member_name := v_name self in
      ret {| v_class := v_class self; v_shape := v_shape self;
             v_dim_names := v_dim_names self;
             v_name := struct_name ++ "." ++ member_name;
             v_cppname := v_cppname self; v_type := v_type self;
             v_pragma := v_pragma self;
             v_struct_name := Some struct_name;
             v_member_name := Some member_name |}
  end.

Definition StructMemberVariable_definition_cpp (self : TensorObj)
    (name_suffix : string) (as_reference : bool) : M string :=
  type <- load_type (v_type self) ;;
  member_name <- attr "member_name" (v_member_name self) ;;
  ret (t_name type ++ " " ++ member_name ++ name_suffix
       ++ "[" ++ size_cpp self ++ "]").

Definition StructMemberVariable_from_variable (tensor_var : loc)
    (type_converter : HLSTypeConverter) (pragma : string)
    (struct_name : option string) : M loc :=
  o <- load tensor_var ;;
  if decide (tensor_class_of o = Some StructMemberVariable) then ret tensor_var
  else
    self <- StructMemberVariable_init tensor_var type_converter pragma struct_name ;;
    alloc (OTensor self).

(** *** Streams *)

(** [np.prod] over a list of [int] accumulates in signed 64-bit integers,
    and integer floor division by zero yields zero (numpy warns, it does
    not raise).  Dimensions are taken to be 64-bit values. *)
Definition wrap64 (z : Z) : Z := (z + 2 ^ 63) mod 2 ^ 64 - 2 ^ 63.

Definition np_prod (shape : list Z) : Z :=
  fold_left (fun acc d => wrap64 (acc * d)) shape 1.

Definition np_floor_divide (a b : Z) : Z :=
  if (b =? 0)%Z then 0 else wrap64 (a / b).

(** [shape[-1]]. *)
Definition shape_last (shape : list Z) : M Z :=
  match last shape with
  | Some d => ret d
  | None => raise IndexError
  end.

Definition StreamVariable_init (tensor_var : loc)
    (type_converter : HLSTypeConverter) (n_pack depth : Z) : M TensorObj :=
  tv <- load_tensor tensor_var ;;
  tv_type <- load_type (v_type tv) ;;
  self <- TensorVariable_init StreamVariable (v_shape tv) (v_dim_names tv)
            (v_name tv) (t_name tv_type) (t_precision tv_type) ;;
  self_type <- load_type (v_type self) ;;
  n_elem <- shape_last (v_shape self) ;;
  packed <- alloc (OType (new_packed PackedType (t_name self_type)
                            (t_precision self_type) n_elem n_pack)) ;;
  type <- HLSTypeConverter_convert type_converter packed ;;
  depth <- (if (depth =? 0)%Z
            then (d <- shape_last (v_shape self) ;;
                  ret (np_floor_divide (np_prod (v_shape self)) d))
            else ret depth) ;;
  ret {| v_class := v_class self; v_shape := v_shape self;
         v_dim_names := v_dim_names self; v_name := v_name self;
         v_cppname := v_cppname self; v_type := type;
         v_pragma := Some (PragmaStream depth);
         v_struct_name := v_struct_name self;
         v_member_name := v_member_name self |}.

Definition get_shape (self : TensorObj) : list (string * Z) :=
  zip (v_dim_names self) (v_shape self).

Definition StreamVariable_definition_cpp (self : TensorObj)
    (name_suffix : string) (as_reference : bool) : M string :=
  type <- load_type (v_type self) ;;
  if as_reference then (* Function parameter *)
    ret ("hls::stream<" ++ t_name type ++ "> &" ++ v_cppname self ++ name_suffix)
  else (* Declaration *)
    ret ("hls::stream<" ++ t_name type ++ "> " ++ v_cppname self ++ name_suffix
         ++ "(" ++ dquote ++ v_cppname self ++ dquote ++ ")").

Definition StreamVariable_from_variable (tensor_var : loc)
    (type_converter : HLSTypeConverter) (n_pack depth : Z) : M loc :=
  o <- load tensor_var ;;
  if decide (tensor_class_of o = Some StreamVariable) then ret tensor_var
  else
    self <- StreamVariable_init tensor_var type_converter n_pack depth ;;
    alloc (OTensor self).

(** *** Weights *)

Definition StaticWeightVariable_init (weight_var : loc)
    (type_converter : HLSTypeConverter) : M WeightObj :=
  wv <- load_weight weight_var ;;
  wv_type <- load_type (w_type wv) ;;
  self <- WeightVariable_init StaticWeightVariable (w_name wv) (t_name wv_type)
            (t_precision wv_type) (w_data wv) None ;;
  let weight_class := weight_class_name (w_class wv) in
  type <- HLSTypeConverter_convert type_converter (w_type self) ;;
  ret {| w_class := w_class self; w_name := w_name self;
         w_cppname := w_cppname self; w_type := type; w_data := w_data self;
         w_data_length := w_data_length self; w_quantizer := w_quantizer self;
         w_weight_class := Some weight_class |}.

Definition StaticWeightVariable_definition_cpp (self : WeightObj)
    (name_suffix : string) (as_reference : bool) : M string :=
  type <- load_type (w_type self) ;;
  ret (t_name type ++ " " ++ w_cppname self
       ++ "[" ++ str_int (w_data_length self) ++ "]").

Definition StaticWeightVariable_from_variable (weight_var : loc)
    (type_converter : HLSTypeConverter) : M loc :=
  o <- load weight_var ;;
  if decide (weight_class_of o = Some StaticWeightVariable) then ret weight_var
  else
    self <- StaticWeightVariable_init weight_var type_converter ;;
    alloc (OWeight self).

Definition BramWeightVariable_from_variable (weight_var : loc) : M loc :=
  o <- load weight_var ;;
  if decide (weight_class_of o = Some BramWeightVariable) then ret weight_var
  else
    wv <- load_weight weight_var ;;
    wv_type <- load_type (w_type wv) ;;
    self <- WeightVariable_init BramWeightVariable (w_name wv) (t_name wv_type)
              (t_precision wv_type) (w_data wv) (w_quantizer wv) ;;
    alloc (OWeight self).

End HlsTypes.

(** ** Vocabulary of the statements *)

(** Outcomes of a computation started in store [h]. *)
Definition returns {A} (m : M A) (h : heap) (a : A) (h' : heap) : Prop :=
  m h = (inr a, h').

Definition raises {A} (m : M A) (h : heap) (e : PyErr) (h' : heap) : Prop :=
  m h = (inl e, h').

(** The two dialect converters and the class-name prefix each one tests. *)
Definition is_dialect (c : PrecisionConverter) : bool :=
  match c with PrecisionTypeConverter => false | _ => true end.

Definition dialect_prefix (c : PrecisionConverter) : string :=
  match c with
  | APTypeConverter => "AP"
  | ACTypeConverter => "AC"
  | PrecisionTypeConverter => ""
  end.

(** The converter of the other dialect. *)
Definition other_dialect (c : PrecisionConverter) : PrecisionConverter :=
  match c with
  | APTypeConverter => ACTypeConverter
  | ACTypeConverter => APTypeConverter
  | PrecisionTypeConverter => PrecisionTypeConverter
  end.

(** An object carries the tag of [c]'s dialect when its class name starts with
    the dialect's prefix: the test the converters make. *)
Definition tagged (c : PrecisionConverter) (o : Obj) : bool :=
  startswith (obj_class_name o) (dialect_prefix c).

(** The four abstract kinds. *)
Definition abstract_kind (cls : PrecisionClass) : bool :=
  match cls with
  | XnorPrecisionType | IntegerPrecisionType
  | ExponentPrecisionType | FixedPrecisionType => true
  | _ => false
  end.

(** An object is of a recognized abstract kind. *)
Definition abstract_obj (o : Obj) : bool :=
  match o with OPrecision p => abstract_kind (p_class p) | _ => false end.

(** A recognized precision descriptor: an object of one of the four abstract
    kinds that has the fields its kind defines. *)
Definition recognized (p : PrecisionObj) : bool :=
  match p_class p with
  | XnorPrecisionType | IntegerPrecisionType | ExponentPrecisionType => true
  | FixedPrecisionType => bool_decide (is_Some (fixed p))
  | _ => false
  end.

(** What a dialect converter accepts. *)
Definition convertible (c : PrecisionConverter) (o : Obj) : bool :=
  is_dialect c
  && (tagged c o || match o with OPrecision p => recognized p | _ => false end).

(** The object a dialect converter creates from a recognized descriptor. *)
Definition dialect_object (c : PrecisionConverter) (p : PrecisionObj) : PrecisionObj :=
  match c, p_class p with
  | APTypeConverter, XnorPrecisionType => new_xnor APXnorPrecisionType
  | APTypeConverter, IntegerPrecisionType =>
      new_int_like APIntegerPrecisionType (width p) (signed p)
  | APTypeConverter, ExponentPrecisionType =>
      new_int_like APExponentPrecisionType (width p) (signed p)
  | APTypeConverter, FixedPrecisionType =>
      {| p_class := APFixedPrecisionType; width := width p; signed := signed p;
         fixed := fixed p |}
  | ACTypeConverter, XnorPrecisionType => new_xnor ACXnorPrecisionType
  | ACTypeConverter, IntegerPrecisionType =>
      new_int_like ACIntegerPrecisionType (width p) (signed p)
  | ACTypeConverter, ExponentPrecisionType =>
      new_int_like ACExponentPrecisionType (width p) (signed p)
  | ACTypeConverter, FixedPrecisionType =>
      {| p_class := ACFixedPrecisionType; width := width p; signed := signed p;
         fixed := fixed p |}
  | _, _ => p
  end.

(** Convert the type at [t] with [tc], then render the declaration. *)
Definition convert_and_render (precision_str : PrecisionObj -> string)
    (PackedType_fields : Z -> Z -> PackedFields) (tc : HLSTypeConverter)
    (t : loc) (h : heap) : PyErr + string :=
  fst ((t' <- HLSTypeConverter_convert PackedType_fields tc t ;;
        type_definition_cpp precision_str t') h).

(** The text the dialect of [c] renders for the precision at [l]. *)
Definition dialect_text (c : PrecisionConverter) (l : loc) (h : heap) : PyErr + string :=
  fst ((l' <- convert c l ;; precision_cpp l') h).

(** A tensor variable in the store, with its named type and a precision the
    converter of [tc] accepts. *)
Definition well_formed (tc : HLSTypeConverter) (h : heap) (tensor_var : loc)
    (v : TensorObj) (ty : TypeObj) : Prop :=
  h !! tensor_var = Some (OTensor v)
  /\ h !! v_type v = Some (OType ty)
  /\ exists o, h !! t_precision ty = Some o
               /\ convertible (precision_converter tc) o = true.

(** The classes on which [ArrayVariable.from_variable] is the class method. *)
Definition array_class (cls : TensorClass) : bool :=
  match cls with
  | ArrayVariable | VivadoArrayVariable | QuartusArrayVariable => true
  | _ => false
  end.

(** The array object [ArrayVariable.__init__] builds from the variable [v]. *)
Definition array_object (cppname_of : string -> string) (cls : TensorClass)
    (v : TensorObj) (pragma : string) (type : loc) : TensorObj :=
  {| v_class := cls; v_shape := v_shape v; v_dim_names := v_dim_names v;
     v_name := v_name v; v_cppname := cppname_of (v_name v); v_type := type;
     v_pragma := Some (PragmaName pragma);
     v_struct_name := None; v_member_name := None |}.

(** The stream object [StreamVariable.__init__] builds from the variable [v]. *)
Definition stream_object (cppname_of : string -> string) (v : TensorObj)
    (depth : Z) (type : loc) : TensorObj :=
  {| v_class := StreamVariable; v_shape := v_shape v; v_dim_names := v_dim_names v;
     v_name := v_name v; v_cppname := cppname_of (v_name v); v_type := type;
     v_pragma := Some (PragmaStream depth);
     v_struct_name := None; v_member_name := None |}.

(** The default queue depth, [np.prod(shape) // shape[-1]]. *)
Definition default_depth (shape : list Z) (last_dim : Z) : Z :=
  np_floor_divide (np_prod shape) last_dim.

(** [product(shape)] over the integers. *)
Definition product (shape : list Z) : Z := foldr Z.mul 1 shape.

Definition struct_name_message : string :=
  "struct_name must be provided when creating StructMemberVariable".

(** No text [s] followed by a fixed tail can spell two words that agree on
    their first letter only and are each followed by that tail's opening. *)
Ltac clash_on_prefix s H1 H2 :=
  destruct s as [|? [|? ?]]; simpl in H1, H2;
  injection H1; injection H2; intros; subst; discriminate.

(** The store [h'] is the store [h] with new objects after it: every
    location of [h] holds in [h'] the object it held in [h]. *)
Definition extends (h h' : heap) : Prop := exists ext, h' = (h ++ ext)%list.



(** A weight variable in the store, with its named type and a precision the
    converter of [tc] accepts. *)
Definition well_formed_weight (tc : HLSTypeConverter) (h : heap) (weight_var : loc)
    (w : WeightObj) (ty : TypeObj) : Prop :=
  h !! weight_var = Some (OWeight w)
  /\ h !! w_type w = Some (OType ty)
  /\ exists o, h !! t_precision ty = Some o
               /\ convertible (precision_converter tc) o = true.

(** The wrapper class the type converter chooses for a named-type class. *)
Definition wrapper_class (cls : TypeClass) : TypeClass :=
  match cls with
  | PackedType | HLSPackedType => HLSPackedType
  | CompressedType | HLSCompressedType => HLSCompressedType
  | ExponentType | HLSExponentType => HLSExponentType
  | NamedType | HLSType => HLSType
  end.

(** The attributes the class of a named type defines are there. *)
Definition has_class_fields (ty : TypeObj) : bool :=
  match wrapper_class (t_class ty) with
  | HLSPackedType => bool_decide (is_Some (t_packed ty))
  | HLSCompressedType => bool_decide (is_Some (t_index_precision ty))
  | _ => true
  end.

(** ** Sample inputs *)

(** One choice of the three functions this module takes from
    [hls4ml.model.hls_types], to run the definitions on concrete inputs: a
    precision prints as its bounded-width integer text, a packed type stores
    its arguments and does not unpack, and a name is its own [cppname]. *)
Definition sample_str (p : PrecisionObj) : string :=
  APIntegerPrecisionType_definition_cpp p.

Definition sample_packed (n_elem n_pack : Z) : PackedFields :=
  {| n_elem := n_elem; n_pack := n_pack; unpack := false |}.

Definition sample_cppname (name : string) : string := name.

Definition AP_types : HLSTypeConverter := {| precision_converter := APTypeConverter |}.
Definition AC_types : HLSTypeConverter := {| precision_converter := ACTypeConverter |}.

Definition fixed_16_6 : PrecisionObj :=
  new_fixed FixedPrecisionType 16 6 true None None None.

Definition ap_fixed_16_6 : PrecisionObj :=
  new_fixed APFixedPrecisionType 16 6 true None None None.

Definition uint_10 : PrecisionObj := new_int_like IntegerPrecisionType 10 false.

Definition packed_32_4 (cls : TypeClass) (u : bool) : TypeObj :=
  {| t_class := cls; t_name := "layer2_t"; t_precision := 0%nat;
     t_index_precision := None;
     t_packed := Some {| n_elem := 32; n_pack := 4; unpack := u |} |}.

Definition packed_store (u : bool) : heap :=
  [ OPrecision fixed_16_6; OType (packed_32_4 PackedType u) ].

Definition converted_packed_store (u : bool) : heap :=
  [ OPrecision ap_fixed_16_6; OType (packed_32_4 HLSPackedType u) ].

(** A compressed type with a 10-bit unsigned index and a 16.6 fixed weight. *)
Definition compressed_store : heap :=
  [ OPrecision fixed_16_6; OPrecision uint_10;
    OType (new_compressed CompressedType "w_t" 0%nat 1%nat) ].

Definition compressed_struct (index weight : string) : string :=
  "typedef struct w_t {" ++ index ++ " row_index;" ++ index ++ " col_index;"
  ++ weight ++ " weight; } w_t;" ++ nl.

(** An exponent type over an 8-bit signed exponent precision. *)
Definition exponent_store : heap :=
  [ OPrecision (new_int_like ExponentPrecisionType 8 true);
    OType (new_named ExponentType "exp_t" 0%nat) ].

Definition exponent_struct (sign weight : string) : string :=
  "typedef struct exp_t {" ++ sign ++ " sign;" ++ weight ++ " weight; } exp_t;" ++ nl.

Definition in_t : TypeObj := new_named NamedType "in_t" 0%nat.

(** The store of the examples: a 16.6 fixed precision, the named type
    [in_t] over it, and tensor variables of shape [shape] named [x]. *)
Definition tensor_x (cls : TensorClass) (shape : list Z) : TensorObj :=
  {| v_class := cls; v_shape := shape; v_dim_names := ["N_A"; "N_B"];
     v_name := "x"; v_cppname := "x"; v_type := 1%nat;
     v_pragma := None; v_struct_name := None; v_member_name := None |}.

Definition tensor_store (cls : TensorClass) (shape : list Z) : heap :=
  [ OPrecision fixed_16_6; OType in_t; OTensor (tensor_x cls shape) ].

Definition foreign_store : heap :=
  [ OPrecision (new_int_like ACIntegerPrecisionType 8 true);
    OType (new_named NamedType "in_t" 0%nat) ].

Definition converted_plain_store : heap :=
  [ OPrecision ap_fixed_16_6; OType (new_named HLSType "in_t" 0%nat) ].

Definition weight_w (cls : WeightClass) : WeightObj :=
  {| w_class := cls; w_name := "w2"; w_cppname := "w2"; w_type := 1%nat;
     w_data := [1; 2; 3; 4; 5; 6]; w_data_length := 6;
     w_quantizer := Some "q"; w_weight_class := None |}.

Definition weight_store (cls : WeightClass) : heap :=
  [ OPrecision fixed_16_6; OType in_t; OWeight (weight_w cls) ].

(** * Properties *)

(** ** Stores and computations: basic facts *)

Lemma lookup_snoc (h : heap) (o : Obj) : (h ++ [o])%list !! length h = Some o.
Proof. rewrite lookup_app_r by lia. by rewrite Nat.sub_diag. Qed.

Lemma lookup_extend (h ext : heap) (l : loc) (o : Obj) :
  h !! l = Some o -> (h ++ ext)%list !! l = Some o.
Proof. intros H. by apply lookup_app_l_Some. Qed.

Lemma append_assoc (a b c : string) : (a ++ b) ++ c = a ++ b ++ c.
Proof.
  induction a as [|x a IH]; [reflexivity |].
  change (String x ((a ++ b) ++ c) = String x (a ++ b ++ c)). by rewrite IH.
Qed.

Lemma returns_ret {A} (a : A) h : returns (ret a) h a h.
Proof. reflexivity. Qed.

Lemma returns_bind {A B} (m : M A) (k : A -> M B) h a h1 b h2 :
  returns m h a h1 -> returns (k a) h1 b h2 -> returns (bind m k) h b h2.
Proof. unfold returns, bind. intros -> ->. reflexivity. Qed.


Lemma raises_bind_r {A B} (m : M A) (k : A -> M B) h a h1 e h2 :
  returns m h a h1 -> raises (k a) h1 e h2 -> raises (bind m k) h e h2.
Proof. unfold returns, raises, bind. intros -> ->. reflexivity. Qed.

Lemma returns_load h l o : h !! l = Some o -> returns (load l) h o h.
Proof. unfold returns, load. intros ->. reflexivity. Qed.

Lemma returns_alloc h o : returns (alloc o) h (length h) (h ++ [o])%list.
Proof. reflexivity. Qed.

Lemma returns_attr {A} name (x : A) h : returns (attr name (Some x)) h x h.
Proof. reflexivity. Qed.

Lemma returns_load_precision h l p :
  h !! l = Some (OPrecision p) -> returns (load_precision l) h p h.
Proof.
  intros H. unfold load_precision.
  eapply returns_bind; [by apply returns_load | reflexivity].
Qed.

Lemma returns_load_type h l t :
  h !! l = Some (OType t) -> returns (load_type l) h t h.
Proof.
  intros H. unfold load_type.
  eapply returns_bind; [by apply returns_load | reflexivity].
Qed.


(** ** Precision conversion *)

Lemma convert_recognized c h l p :
  is_dialect c = true -> h !! l = Some (OPrecision p) -> recognized p = true ->
  returns (convert c l) h (length h) (h ++ [OPrecision (dialect_object c p)])%list.
Proof.
  intros Hc Hl Hp. destruct p as [cls w s f]. unfold recognized in Hp. simpl in Hp.
  destruct c; try discriminate; simpl;
    [unfold APTypeConverter_convert | unfold ACTypeConverter_convert];
    (eapply returns_bind; [by apply returns_load |]);
    destruct cls; try discriminate; simpl; try reflexivity;
    apply bool_decide_eq_true in Hp; destruct Hp as [[i rm sm sb] ->]; reflexivity.
Qed.

Lemma convert_tagged c h l o :
  is_dialect c = true -> h !! l = Some o -> tagged c o = true ->
  returns (convert c l) h l h.
Proof.
  intros Hc Hl Ht. unfold tagged in Ht.
  destruct c; try discriminate; simpl in *;
    [unfold APTypeConverter_convert | unfold ACTypeConverter_convert];
    (eapply returns_bind; [by apply returns_load |]);
    rewrite Ht; reflexivity.
Qed.

Lemma dialect_object_tagged c p :
  is_dialect c = true -> recognized p = true ->
  tagged c (OPrecision (dialect_object c p)) = true.
Proof.
  destruct p as [cls w s f]. unfold recognized. simpl.
  destruct c, cls; try discriminate; reflexivity.
Qed.

Lemma dialect_object_renders c p :
  is_dialect c = true -> recognized p = true ->
  exists text, precision_definition_cpp (dialect_object c p) = inr text.
Proof.
  destruct p as [cls w s f]. unfold recognized. simpl.
  destruct c, cls; try discriminate; intros _ Hp;
    try (eexists; reflexivity);
    apply bool_decide_eq_true in Hp; destruct Hp as [ff ->];
    eexists; reflexivity.
Qed.

Lemma returns_precision_cpp h l p text :
  h !! l = Some (OPrecision p) -> precision_definition_cpp p = inr text ->
  returns (precision_cpp l) h text h.
Proof.
  intros Hl Hp. unfold precision_cpp.
  eapply returns_bind; [by apply returns_load_precision |].
  rewrite Hp. reflexivity.
Qed.

(** C5. For a recognized precision descriptor and either dialect, converting
    creates a dialect object; converting that object again returns the very
    same object and leaves the store alone, so both render the same text, and
    rendering succeeds.  More generally every object that already carries the
    dialect's tag is returned unchanged. *)
Theorem precision_convert_idempotent (c : PrecisionConverter) h l p :
  is_dialect c = true ->
  h !! l = Some (OPrecision p) ->
  recognized p = true ->
  exists l1 h1 text,
    returns (convert c l) h l1 h1
    /\ returns (convert c l1) h1 l1 h1
    /\ returns (precision_cpp l1) h1 text h1
    /\ returns (l2 <- convert c l1 ;; precision_cpp l2) h1 text h1
    /\ (forall h' l' o', h' !! l' = Some o' -> tagged c o' = true ->
          returns (convert c l') h' l' h').
Proof.
  intros Hc Hl Hp.
  destruct (dialect_object_renders c p Hc Hp) as [text Htext].
  pose proof (convert_tagged c _ _ _ Hc (lookup_snoc h (OPrecision (dialect_object c p)))
                (dialect_object_tagged c p Hc Hp)) as Hagain.
  pose proof (returns_precision_cpp _ _ _ _
                (lookup_snoc h (OPrecision (dialect_object c p))) Htext) as Hrender.
  exists (length h), (h ++ [OPrecision (dialect_object c p)])%list, text.
  split; [by apply convert_recognized |].
  split; [exact Hagain |].
  split; [exact Hrender |].
  split; [eapply returns_bind; [exact Hagain | exact Hrender] |].
  intros h' l' o' Hl' Ht. by eapply convert_tagged.
Qed.

Lemma precision_convert_idempotent_witness :
  exists l1 h1 text,
    returns (convert ACTypeConverter 0%nat) [OPrecision fixed_16_6] l1 h1
    /\ returns (convert ACTypeConverter l1) h1 l1 h1
    /\ returns (precision_cpp l1) h1 text h1
    /\ returns (l2 <- convert ACTypeConverter l1 ;; precision_cpp l2) h1 text h1
    /\ (forall h' l' o', h' !! l' = Some o' -> tagged ACTypeConverter o' = true ->
          returns (convert ACTypeConverter l') h' l' h').
Proof.
  apply (precision_convert_idempotent ACTypeConverter
           [OPrecision fixed_16_6] 0%nat fixed_16_6); reflexivity.
Defined.

Lemma prefix_cons a s1 b s2 :
  String.prefix (String a s1) (String b s2)
  = if Ascii.ascii_dec a b then String.prefix s1 s2 else false.
Proof. reflexivity. Qed.

(** A name cannot start with two prefixes that differ in their second letter. *)
Lemma prefixes_exclusive (a x y : Ascii.ascii) (name : string) :
  x <> y ->
  String.prefix (String a (String x EmptyString)) name = true ->
  String.prefix (String a (String y EmptyString)) name = false.
Proof.
  intros Hxy. destruct name as [|a' [|b' n]].
  - discriminate.
  - rewrite !prefix_cons. destruct (Ascii.ascii_dec a a'); [discriminate | done].
  - rewrite !prefix_cons. destruct (Ascii.ascii_dec a a'); [| done].
    destruct (Ascii.ascii_dec x b'), (Ascii.ascii_dec y b'); try done.
    congruence.
Qed.

Lemma other_tag_excludes c o :
  is_dialect c = true -> tagged (other_dialect c) o = true ->
  abstract_obj o = false /\ tagged c o = false.
Proof.
  intros Hc Hother. split.
  - destruct o as [[cls w s f]| | |]; try reflexivity.
    destruct c, cls; try discriminate; reflexivity.
  - unfold tagged, startswith in *.
    destruct c; try discriminate; simpl dialect_prefix in *;
      (eapply prefixes_exclusive; [| exact Hother]); discriminate.
Qed.

Lemma convert_unsupported c h l o :
  is_dialect c = true -> h !! l = Some o ->
  abstract_obj o = false -> tagged c o = false ->
  raises (convert c l) h
    (Exception ("Cannot convert precision type to " ++ dialect_prefix c ++ ": "
                ++ obj_class_name o)) h.
Proof.
  intros Hc Hl Ha Ht. unfold tagged in Ht.
  destruct c; try discriminate; simpl in *;
    [unfold APTypeConverter_convert | unfold ACTypeConverter_convert];
    (eapply raises_bind_r; [by apply returns_load |]);
    rewrite Ht; destruct o as [[cls w s f]| | |]; try reflexivity;
    simpl in *; destruct cls; try discriminate; reflexivity.
Qed.

(** C6. A dialect converter given an object that is neither of one of the four
    abstract kinds nor tagged for its own dialect (in particular an object
    tagged for the other dialect) raises the "cannot convert" exception, and
    the store after the call is the store before it. *)
Theorem precision_convert_rejects (c : PrecisionConverter) h l o :
  is_dialect c = true ->
  h !! l = Some o ->
  tagged (other_dialect c) o = true
  \/ (abstract_obj o = false /\ tagged c o = false) ->
  raises (convert c l) h
    (Exception ("Cannot convert precision type to " ++ dialect_prefix c ++ ": "
                ++ obj_class_name o)) h.
Proof.
  intros Hc Hl [Hother | [Ha Ht]].
  - destruct (other_tag_excludes c o Hc Hother) as [Ha Ht].
    by apply convert_unsupported.
  - by apply convert_unsupported.
Qed.

Lemma precision_convert_rejects_witness :
  raises (convert APTypeConverter 0%nat)
    [OPrecision (new_int_like ACIntegerPrecisionType 8 true)]
    (Exception "Cannot convert precision type to AP: ACIntegerPrecisionType")
    [OPrecision (new_int_like ACIntegerPrecisionType 8 true)].
Proof.
  apply (precision_convert_rejects APTypeConverter
           [OPrecision (new_int_like ACIntegerPrecisionType 8 true)] 0%nat
           (OPrecision (new_int_like ACIntegerPrecisionType 8 true)));
    [reflexivity | reflexivity | left; reflexivity].
Defined.

(** *** Rendered text of the dialect leaves *)

(** The literal cases: 8-bit signed and 4-bit unsigned integers, and a 16.6
    fixed-point precision without and with a rounding mode. *)
Example dialect_literal_cases :
  dialect_text APTypeConverter 0%nat
    [OPrecision (new_int_like IntegerPrecisionType 8 true)] = inr "ap_int<8>"
  /\ dialect_text ACTypeConverter 0%nat
       [OPrecision (new_int_like IntegerPrecisionType 8 true)] = inr "ac_int<8, true>"
  /\ dialect_text APTypeConverter 0%nat
       [OPrecision (new_int_like IntegerPrecisionType 4 false)] = inr "ap_uint<4>"
  /\ dialect_text ACTypeConverter 0%nat
       [OPrecision (new_int_like IntegerPrecisionType 4 false)] = inr "ac_int<4, false>"
  /\ dialect_text APTypeConverter 0%nat [OPrecision fixed_16_6] = inr "ap_fixed<16,6>"
  /\ dialect_text APTypeConverter 0%nat
       [OPrecision (new_fixed FixedPrecisionType 16 6 true (Some "RND") None None)]
     = inr "ap_fixed<16,6,AP_RND>"
  /\ dialect_text ACTypeConverter 0%nat
       [OPrecision (new_fixed FixedPrecisionType 16 6 true (Some "RND") None None)]
     = inr "ac_fixed<16,6,true,AC_RND>".
Proof. repeat split; reflexivity. Qed.

(** Unset optional arguments of a fixed-point precision leave no trace in the
    text: no empty token, no trailing comma. *)
Theorem fixed_without_options (w i : Z) (s : bool) :
  precision_definition_cpp (new_fixed APFixedPrecisionType w i s None None None)
  = inr ("ap_" ++ (if s then "" else "u") ++ "fixed<"
         ++ str_int w ++ "," ++ str_int i ++ ">")
  /\ precision_definition_cpp (new_fixed ACFixedPrecisionType w i s None None None)
     = inr ("ac_fixed<" ++ str_int w ++ "," ++ str_int i ++ ","
            ++ str_bool_lower s ++ ">").
Proof.
  destruct s; split; cbv - [String.append str_int];
    rewrite ?append_assoc; reflexivity.
Qed.

(** ** Named-type wrappers *)

Lemma convert_ok c h l o :
  h !! l = Some o -> convertible c o = true ->
  exists l' ext o',
    returns (convert c l) h l' (h ++ ext)%list
    /\ (h ++ ext)%list !! l' = Some o'
    /\ tagged c o' = true.
Proof.
  intros Hl Hc. unfold convertible in Hc.
  apply andb_true_iff in Hc as [Hd Hc].
  destruct (tagged c o) eqn:Ht.
  - exists l, [], o. rewrite app_nil_r. split; [by eapply convert_tagged | done].
  - destruct o as [p| | |]; try discriminate. simpl in Hc.
    exists (length h), [OPrecision (dialect_object c p)], (OPrecision (dialect_object c p)).
    split; [by apply convert_recognized |].
    split; [apply lookup_snoc | by apply dialect_object_tagged].
Qed.

Section TypeFacts.

Variable precision_str : PrecisionObj -> string.
Variable PackedType_fields : Z -> Z -> PackedFields.

Lemma convert_packed (tc : HLSTypeConverter) h t ty f o :
  h !! t = Some (OType ty) ->
  issubclass (t_class ty) PackedType = true ->
  t_packed ty = Some f ->
  h !! t_precision ty = Some o ->
  convertible (precision_converter tc) o = true ->
  exists precision ext,
    returns (HLSTypeConverter_convert PackedType_fields tc t) h
      (length (h ++ ext)%list)
      ((h ++ ext) ++ [OType (new_packed PackedType_fields HLSPackedType (t_name ty)
                                precision (n_elem f) (n_pack f))])%list.
Proof.
  intros Ht Hcls Hf Ho Hc.
  destruct (convert_ok _ _ _ _ Ho Hc) as (precision & ext & o' & Hconv & _ & _).
  exists precision, ext. unfold HLSTypeConverter_convert.
  eapply returns_bind; [eapply returns_load; exact Ht |]. simpl. rewrite Hcls.
  unfold HLSPackedType_from_type.
  eapply returns_bind; [exact Hconv |].
  rewrite Hf. eapply returns_bind; [apply returns_attr |].
  apply returns_alloc.
Qed.

(** C10. Converting a packed type passes the name, the converted precision,
    [n_elem] and [n_pack] to the constructor and nothing else: the packed
    fields of the result, its [unpack] flag among them, are what the
    constructor derives from [n_elem] and [n_pack], whatever [unpack] the
    source carried. *)
Theorem packed_conversion_drops_unpack (tc : HLSTypeConverter) h t ty
    (ne np : Z) (u : bool) o :
  h !! t = Some (OType ty) ->
  issubclass (t_class ty) PackedType = true ->
  t_packed ty = Some {| n_elem := ne; n_pack := np; unpack := u |} ->
  h !! t_precision ty = Some o ->
  convertible (precision_converter tc) o = true ->
  exists t' h' converted,
    returns (HLSTypeConverter_convert PackedType_fields tc t) h t' h'
    /\ h' !! t' = Some (OType converted)
    /\ t_class converted = HLSPackedType
    /\ t_name converted = t_name ty
    /\ t_packed converted = Some (PackedType_fields ne np).
Proof.
  intros Ht Hcls Hf Ho Hc.
  destruct (convert_packed tc _ _ _ _ _ Ht Hcls Hf Ho Hc) as (precision & ext & Hret).
  eexists _, _, _. split; [exact Hret |].
  split; [apply lookup_snoc | done].
Qed.

End TypeFacts.

Lemma packed_conversion_drops_unpack_witness :
  exists t' h' converted,
    returns (HLSTypeConverter_convert sample_packed AP_types 1%nat)
      (packed_store true) t' h'
    /\ h' !! t' = Some (OType converted)
    /\ t_class converted = HLSPackedType
    /\ t_name converted = "layer2_t"
    /\ t_packed converted = Some (sample_packed 32 4).
Proof.
  apply (packed_conversion_drops_unpack sample_packed AP_types (packed_store true)
           1%nat (packed_32_4 PackedType true) 32 4 true (OPrecision fixed_16_6));
    reflexivity.
Defined.

(** C1 (as amended). The declaration of a converted packed type is
    [typedef nnet::array<P, N> name;] where [P] is the rendered precision and
    [N] is not a computed count but the expression text [str(n_elem)], then
    [/] when [unpack] is set and [*] otherwise, then [str(n_pack)]. *)
Theorem packed_declaration_text (precision_str : PrecisionObj -> string)
    h t self f p text :
  h !! t = Some (OType self) ->
  t_class self = HLSPackedType ->
  t_packed self = Some f ->
  h !! t_precision self = Some (OPrecision p) ->
  precision_definition_cpp p = inr text ->
  returns (type_definition_cpp precision_str t) h
    ("typedef nnet::array<" ++ text ++ ", "
     ++ (str_int (n_elem f) ++ (if unpack f then "/" else "*") ++ str_int (n_pack f))
     ++ "> " ++ t_name self ++ ";" ++ nl) h.
Proof.
  intros Ht Hcls Hf Hp Htext. unfold type_definition_cpp.
  eapply returns_bind; [by apply returns_load_type |]. rewrite Hcls.
  unfold HLSPackedType_definition_cpp. rewrite Hf.
  eapply returns_bind; [apply returns_attr |].
  eapply returns_bind; [by eapply returns_precision_cpp |].
  reflexivity.
Qed.

Lemma packed_declaration_text_witness :
  returns (type_definition_cpp sample_str 1%nat) (converted_packed_store true)
    ("typedef nnet::array<ap_fixed<16,6>, 32/4> layer2_t;" ++ nl)
    (converted_packed_store true)
  /\ returns (type_definition_cpp sample_str 1%nat) (converted_packed_store false)
       ("typedef nnet::array<ap_fixed<16,6>, 32*4> layer2_t;" ++ nl)
       (converted_packed_store false).
Proof.
  split.
  - apply (packed_declaration_text sample_str (converted_packed_store true) 1%nat
             (packed_32_4 HLSPackedType true)
             {| n_elem := 32; n_pack := 4; unpack := true |}
             ap_fixed_16_6 "ap_fixed<16,6>"); reflexivity.
  - apply (packed_declaration_text sample_str (converted_packed_store false) 1%nat
             (packed_32_4 HLSPackedType false)
             {| n_elem := 32; n_pack := 4; unpack := false |}
             ap_fixed_16_6 "ap_fixed<16,6>"); reflexivity.
Defined.

(** C1 as stated fails: with [n_elem = 32], [n_pack = 4] the rendered length
    is the text [32/4], not [8], and without [unpack] it is [32*4], not [128]. *)
Lemma packed_length_is_not_computed :
  (HLSPackedType_definition_cpp (packed_32_4 HLSPackedType true)
     (converted_packed_store true)
   = (inr ("typedef nnet::array<ap_fixed<16,6>, 32/4> layer2_t;" ++ nl),
      converted_packed_store true)
   /\ HLSPackedType_definition_cpp (packed_32_4 HLSPackedType true)
        (converted_packed_store true)
      <> (inr ("typedef nnet::array<ap_fixed<16,6>, " ++ str_int (32 / 4)
               ++ "> layer2_t;" ++ nl),
          converted_packed_store true))
  /\ (HLSPackedType_definition_cpp (packed_32_4 HLSPackedType false)
        (converted_packed_store false)
      = (inr ("typedef nnet::array<ap_fixed<16,6>, 32*4> layer2_t;" ++ nl),
         converted_packed_store false)
      /\ HLSPackedType_definition_cpp (packed_32_4 HLSPackedType false)
           (converted_packed_store false)
         <> (inr ("typedef nnet::array<ap_fixed<16,6>, " ++ str_int (32 * 4)
                  ++ "> layer2_t;" ++ nl),
             converted_packed_store false)).
Proof.
  split; (split; [reflexivity | vm_compute; discriminate]).
Qed.

(** ** Struct wrappers and the dialect of their helper fields *)

Lemma returns_type_definition_cpp_compressed (precision_str : PrecisionObj -> string)
    h t self index_precision index_obj p weight :
  h !! t = Some (OType self) ->
  t_class self = HLSCompressedType ->
  t_index_precision self = Some index_precision ->
  h !! index_precision = Some (OPrecision index_obj) ->
  h !! t_precision self = Some (OPrecision p) ->
  precision_definition_cpp p = inr weight ->
  returns (type_definition_cpp precision_str t) h
    ("typedef struct " ++ t_name self ++ " {"
     ++ precision_str index_obj ++ " row_index;"
     ++ precision_str index_obj ++ " col_index;"
     ++ weight ++ " weight; } " ++ t_name self ++ ";" ++ nl) h.
Proof.
  intros Ht Hcls Hi Hio Hp Hw. unfold type_definition_cpp.
  eapply returns_bind; [by apply returns_load_type |]. rewrite Hcls.
  unfold HLSCompressedType_definition_cpp. rewrite Hi.
  eapply returns_bind; [apply returns_attr |].
  eapply returns_bind; [by eapply returns_precision_cpp |].
  eapply returns_bind; [by apply returns_load_precision |].
  reflexivity.
Qed.

(** What the code does for every compressed type over a recognized precision:
    the struct has the fields [row_index], [col_index], [weight] in this
    order; the weight is typed by the dialect text of the converted
    precision, the two index fields by [str()] of the index precision object
    the source type holds, which conversion passes through as it is. *)
Theorem compressed_declaration_text (precision_str : PrecisionObj -> string)
    (PackedType_fields : Z -> Z -> PackedFields) tc h t ty
    index_precision index_obj p :
  is_dialect (precision_converter tc) = true ->
  h !! t = Some (OType ty) ->
  t_class ty = CompressedType ->
  t_index_precision ty = Some index_precision ->
  h !! index_precision = Some (OPrecision index_obj) ->
  h !! t_precision ty = Some (OPrecision p) ->
  recognized p = true ->
  exists t' h' weight,
    returns (HLSTypeConverter_convert PackedType_fields tc t) h t' h'
    /\ precision_definition_cpp (dialect_object (precision_converter tc) p)
       = inr weight
    /\ returns (type_definition_cpp precision_str t') h'
         ("typedef struct " ++ t_name ty ++ " {"
          ++ precision_str index_obj ++ " row_index;"
          ++ precision_str index_obj ++ " col_index;"
          ++ weight ++ " weight; } " ++ t_name ty ++ ";" ++ nl) h'.
Proof.
  intros Hd Ht Hcls Hi Hio Hp Hrec.
  destruct (dialect_object_renders _ p Hd Hrec) as [weight Hw].
  pose proof (convert_recognized _ _ _ _ Hd Hp Hrec) as Hconv.
  eexists _, _, weight. split; [| split; [exact Hw |]].
  - unfold HLSTypeConverter_convert.
    eapply returns_bind; [eapply returns_load; exact Ht |]. simpl. rewrite Hcls. simpl.
    unfold HLSCompressedType_from_type.
    eapply returns_bind; [exact Hconv |]. rewrite Hi.
    eapply returns_bind; [apply returns_attr |].
    apply returns_alloc.
  - eapply (returns_type_definition_cpp_compressed precision_str _ _
              (new_compressed HLSCompressedType (t_name ty) (length h) index_precision));
      [apply lookup_snoc | reflexivity | reflexivity | | | exact Hw].
    + by do 2 apply lookup_extend.
    + apply lookup_extend, lookup_snoc.
Qed.

Lemma compressed_declaration_text_witness :
  exists t' h' weight,
    returns (HLSTypeConverter_convert sample_packed AC_types 2%nat)
      compressed_store t' h'
    /\ precision_definition_cpp (dialect_object ACTypeConverter fixed_16_6)
       = inr weight
    /\ returns (type_definition_cpp sample_str t') h'
         ("typedef struct w_t {"
          ++ sample_str uint_10 ++ " row_index;"
          ++ sample_str uint_10 ++ " col_index;"
          ++ weight ++ " weight; } w_t;" ++ nl) h'.
Proof.
  apply (compressed_declaration_text sample_str sample_packed AC_types
           compressed_store 2%nat (new_compressed CompressedType "w_t" 0%nat 1%nat)
           1%nat uint_10 fixed_16_6); reflexivity.
Defined.

(** What the code does for every exponent type over a recognized precision:
    the struct has the fields [sign], [weight] in this order; the weight is
    typed by the dialect text of the converted precision, the sign by
    [str()] of a fresh abstract Xnor precision, whatever the wrapped
    precision and whatever the dialect. *)
Theorem exponent_declaration_text (precision_str : PrecisionObj -> string)
    (PackedType_fields : Z -> Z -> PackedFields) tc h t ty p :
  is_dialect (precision_converter tc) = true ->
  h !! t = Some (OType ty) ->
  t_class ty = ExponentType ->
  h !! t_precision ty = Some (OPrecision p) ->
  recognized p = true ->
  exists t' h' weight,
    returns (HLSTypeConverter_convert PackedType_fields tc t) h t' h'
    /\ precision_definition_cpp (dialect_object (precision_converter tc) p)
       = inr weight
    /\ returns (type_definition_cpp precision_str t') h'
         ("typedef struct " ++ t_name ty ++ " {"
          ++ precision_str (new_xnor XnorPrecisionType) ++ " sign;"
          ++ weight ++ " weight; } " ++ t_name ty ++ ";" ++ nl) h'.
Proof.
  intros Hd Ht Hcls Hp Hrec.
  destruct (dialect_object_renders _ p Hd Hrec) as [weight Hw].
  pose proof (convert_recognized _ _ _ _ Hd Hp Hrec) as Hconv.
  eexists _, _, weight. split; [| split; [exact Hw |]].
  - unfold HLSTypeConverter_convert.
    eapply returns_bind; [eapply returns_load; exact Ht |]. simpl. rewrite Hcls. simpl.
    unfold HLSExponentType_from_type.
    eapply returns_bind; [exact Hconv |].
    apply returns_alloc.
  - unfold type_definition_cpp.
    eapply returns_bind; [apply returns_load_type, lookup_snoc |]. simpl.
    unfold HLSExponentType_definition_cpp. simpl.
    eapply returns_bind;
      [eapply returns_precision_cpp; [apply lookup_extend, lookup_snoc | exact Hw] |].
    reflexivity.
Qed.

Lemma exponent_declaration_text_witness :
  exists t' h' weight,
    returns (HLSTypeConverter_convert sample_packed AC_types 1%nat)
      exponent_store t' h'
    /\ precision_definition_cpp
         (dialect_object ACTypeConverter (new_int_like ExponentPrecisionType 8 true))
       = inr weight
    /\ returns (type_definition_cpp sample_str t') h'
         ("typedef struct exp_t {"
          ++ sample_str (new_xnor XnorPrecisionType) ++ " sign;"
          ++ weight ++ " weight; } exp_t;" ++ nl) h'.
Proof.
  apply (exponent_declaration_text sample_str sample_packed AC_types
           exponent_store 1%nat (new_named ExponentType "exp_t" 0%nat)
           (new_int_like ExponentPrecisionType 8 true)); reflexivity.
Defined.


(** C2 on the failing input. The fields come in the order [row_index],
    [col_index], [weight] and the weight is typed by the dialect text of the
    converted precision, but the two index fields are typed by [str()] of the
    index precision as the source type holds it: the same text under both
    dialects, whereas the dialects render that precision differently.  So for
    no [__str__] are the index fields dialect-rendered under both dialects. *)
Theorem compressed_index_ignores_dialect (precision_str : PrecisionObj -> string)
    (PackedType_fields : Z -> Z -> PackedFields) :
  convert_and_render precision_str PackedType_fields AP_types 2%nat compressed_store
  = inr (compressed_struct (precision_str uint_10) "ap_fixed<16,6>")
  /\ convert_and_render precision_str PackedType_fields AC_types 2%nat compressed_store
     = inr (compressed_struct (precision_str uint_10) "ac_fixed<16,6,true>")
  /\ dialect_text APTypeConverter 1%nat compressed_store = inr "ap_uint<10>"
  /\ dialect_text ACTypeConverter 1%nat compressed_store = inr "ac_int<10, false>"
  /\ ~ (convert_and_render precision_str PackedType_fields AP_types 2%nat
          compressed_store
        = inr (compressed_struct "ap_uint<10>" "ap_fixed<16,6>")
        /\ convert_and_render precision_str PackedType_fields AC_types 2%nat
             compressed_store
           = inr (compressed_struct "ac_int<10, false>" "ac_fixed<16,6,true>")).
Proof.
  assert (HAP : convert_and_render precision_str PackedType_fields AP_types 2%nat
                  compressed_store
                = inr (compressed_struct (precision_str uint_10) "ap_fixed<16,6>"))
    by reflexivity.
  assert (HAC : convert_and_render precision_str PackedType_fields AC_types 2%nat
                  compressed_store
                = inr (compressed_struct (precision_str uint_10) "ac_fixed<16,6,true>"))
    by reflexivity.
  repeat split; try assumption; try reflexivity.
  rewrite HAP, HAC. unfold compressed_struct.
  generalize (precision_str uint_10). intros s [H1 H2].
  clash_on_prefix s H1 H2.
Qed.

(** C3 on the failing input. The fields come in the order [sign], [weight]
    and the sign does not depend on the wrapped precision, but its text is
    [str()] of a fresh abstract Xnor precision: the same text under both
    dialects, whereas the Xnor leaf renderers of the dialects give
    [ap_uint<1>] and [ac_int<1, false>].  So for no [__str__] is the sign
    rendered by the dialect's Xnor leaf renderer under both dialects. *)
Theorem exponent_sign_ignores_dialect (precision_str : PrecisionObj -> string)
    (PackedType_fields : Z -> Z -> PackedFields) :
  convert_and_render precision_str PackedType_fields AP_types 1%nat exponent_store
  = inr (exponent_struct (precision_str (new_xnor XnorPrecisionType)) "ap_int<8>")
  /\ convert_and_render precision_str PackedType_fields AC_types 1%nat exponent_store
     = inr (exponent_struct (precision_str (new_xnor XnorPrecisionType))
              "ac_int<8, true>")
  /\ precision_definition_cpp (new_xnor APXnorPrecisionType) = inr "ap_uint<1>"
  /\ precision_definition_cpp (new_xnor ACXnorPrecisionType) = inr "ac_int<1, false>"
  /\ ~ (convert_and_render precision_str PackedType_fields AP_types 1%nat
          exponent_store
        = inr (exponent_struct "ap_uint<1>" "ap_int<8>")
        /\ convert_and_render precision_str PackedType_fields AC_types 1%nat
             exponent_store
           = inr (exponent_struct "ac_int<1, false>" "ac_int<8, true>")).
Proof.
  assert (HAP : convert_and_render precision_str PackedType_fields AP_types 1%nat
                  exponent_store
                = inr (exponent_struct (precision_str (new_xnor XnorPrecisionType))
                         "ap_int<8>"))
    by reflexivity.
  assert (HAC : convert_and_render precision_str PackedType_fields AC_types 1%nat
                  exponent_store
                = inr (exponent_struct (precision_str (new_xnor XnorPrecisionType))
                         "ac_int<8, true>"))
    by reflexivity.
  repeat split; try assumption; try reflexivity.
  rewrite HAP, HAC. unfold exponent_struct.
  generalize (precision_str (new_xnor XnorPrecisionType)). intros s [H1 H2].
  clash_on_prefix s H1 H2.
Qed.

(** ** Variables *)

Lemma returns_load_tensor h l v :
  h !! l = Some (OTensor v) -> returns (load_tensor l) h v h.
Proof.
  intros H. unfold load_tensor.
  eapply returns_bind; [by apply returns_load | reflexivity].
Qed.

Section VariableFacts.

Variable PackedType_fields : Z -> Z -> PackedFields.
Variable cppname_of : string -> string.

Lemma convert_plain (tc : HLSTypeConverter) h t name precision o :
  h !! t = Some (OType (new_named NamedType name precision)) ->
  h !! precision = Some o ->
  convertible (precision_converter tc) o = true ->
  exists precision' ext,
    returns (HLSTypeConverter_convert PackedType_fields tc t) h
      (length (h ++ ext)%list)
      ((h ++ ext) ++ [OType (new_named HLSType name precision')])%list.
Proof.
  intros Ht Ho Hc.
  destruct (convert_ok _ _ _ _ Ho Hc) as (precision' & ext & o' & Hconv & _ & _).
  exists precision', ext. unfold HLSTypeConverter_convert.
  eapply returns_bind; [eapply returns_load; exact Ht |]. simpl.
  unfold HLSType_from_type. simpl.
  eapply returns_bind; [exact Hconv |].
  apply returns_alloc.
Qed.

Lemma ArrayVariable_init_ok cls tc pragma h tensor_var v ty :
  well_formed tc h tensor_var v ty ->
  exists precision' ext,
    returns (ArrayVariable_init PackedType_fields cppname_of cls tensor_var tc pragma) h
      (array_object cppname_of cls v pragma (length (h ++ ext)%list))
      ((h ++ ext) ++ [OType (new_named HLSType (t_name ty) precision')])%list.
Proof.
  intros (Hv & Hty & o & Ho & Hc).
  set (nt := OType (new_named NamedType (t_name ty) (t_precision ty))).
  destruct (convert_plain tc (h ++ [nt])%list (length h) (t_name ty) (t_precision ty) o
              (lookup_snoc h nt) (lookup_extend _ _ _ _ Ho) Hc)
    as (precision' & ext & Hconv).
  exists precision', ([nt] ++ ext)%list. rewrite !app_assoc.
  unfold ArrayVariable_init.
  eapply returns_bind; [by apply returns_load_tensor |].
  eapply returns_bind; [by apply returns_load_type |].
  eapply returns_bind.
  { unfold TensorVariable_init. eapply returns_bind; [apply returns_alloc |].
    apply returns_ret. }
  eapply returns_bind; [exact Hconv |].
  apply returns_ret.
Qed.

Lemma StreamVariable_init_ok tc pack depth h tensor_var v ty d :
  well_formed tc h tensor_var v ty ->
  last (v_shape v) = Some d ->
  exists precision' ext,
    returns (StreamVariable_init PackedType_fields cppname_of tensor_var tc pack depth) h
      (stream_object cppname_of v
         (if (depth =? 0)%Z then default_depth (v_shape v) d else depth)
         (length (h ++ ext)%list))
      ((h ++ ext)
       ++ [OType (new_packed PackedType_fields HLSPackedType (t_name ty) precision'
                    (n_elem (PackedType_fields d pack))
                    (n_pack (PackedType_fields d pack)))])%list.
Proof.
  intros (Hv & Hty & o & Ho & Hc) Hd.
  set (nt := OType (new_named NamedType (t_name ty) (t_precision ty))).
  set (pk := new_packed PackedType_fields PackedType (t_name ty) (t_precision ty) d pack).
  destruct (convert_packed PackedType_fields tc ((h ++ [nt]) ++ [OType pk])%list
              (length (h ++ [nt])%list) pk (PackedType_fields d pack) o
              (lookup_snoc _ _) eq_refl eq_refl
              (lookup_extend _ _ _ _ (lookup_extend _ _ _ _ Ho)) Hc)
    as (precision' & ext & Hconv).
  exists precision', ([nt] ++ [OType pk] ++ ext)%list. rewrite !app_assoc.
  unfold StreamVariable_init.
  eapply returns_bind; [by apply returns_load_tensor |].
  eapply returns_bind; [by apply returns_load_type |].
  eapply returns_bind.
  { unfold TensorVariable_init. eapply returns_bind; [apply returns_alloc |].
    apply returns_ret. }
  eapply returns_bind; [apply returns_load_type, lookup_snoc |].
  simpl v_shape. unfold shape_last. rewrite Hd.
  eapply returns_bind; [apply returns_ret |].
  eapply returns_bind; [apply returns_alloc |].
  eapply returns_bind; [exact Hconv |].
  eapply returns_bind
    with (a := if (depth =? 0)%Z then default_depth (v_shape v) d else depth).
  { destruct (depth =? 0)%Z; [| apply returns_ret].
    eapply returns_bind; apply returns_ret. }
  apply returns_ret.
Qed.

End VariableFacts.

(** *** [from_variable] and object identity *)

(** C4 on the failing input. [ArrayVariable.from_variable], which the two
    platform array classes inherit, has no "already converted" test: given a
    variable that is already an instance of the target class it does not
    return it but builds and returns a new object, at a location the store
    did not have, and the input stays where it was. *)
Theorem array_from_variable_rewraps (PackedType_fields : Z -> Z -> PackedFields)
    (cppname_of : string -> string) cls tc pragma h tensor_var v ty :
  array_class cls = true ->
  well_formed tc h tensor_var v ty ->
  v_class v = cls ->
  exists r h' w,
    returns (ArrayVariable_from_variable PackedType_fields cppname_of cls
               tensor_var tc pragma) h r h'
    /\ r <> tensor_var
    /\ h !! r = None
    /\ h' !! r = Some (OTensor w)
    /\ v_class w = cls
    /\ h' !! tensor_var = Some (OTensor v).
Proof.
  intros _ Hwf Hcls.
  destruct (ArrayVariable_init_ok PackedType_fields cppname_of cls tc pragma
              _ _ _ _ Hwf) as (precision' & ext & Hinit).
  destruct Hwf as (Hv & _).
  pose proof (lookup_lt_Some _ _ _ Hv) as Hlt.
  eexists _, _, _. split.
  { unfold ArrayVariable_from_variable.
    eapply returns_bind; [exact Hinit | apply returns_alloc]. }
  split; [rewrite !length_app; lia |].
  split; [apply lookup_ge_None; rewrite !length_app; lia |].
  split; [apply lookup_snoc |].
  split; [reflexivity |].
  by do 3 apply lookup_extend.
Qed.

Lemma tensor_store_well_formed tc cls shape :
  is_dialect (precision_converter tc) = true ->
  well_formed tc (tensor_store cls shape) 2%nat (tensor_x cls shape) in_t.
Proof.
  intros Hd. split; [reflexivity |]. split; [reflexivity |].
  exists (OPrecision fixed_16_6). split; [reflexivity |].
  unfold convertible. rewrite Hd. apply orb_true_r.
Qed.

Lemma array_from_variable_rewraps_witness :
  exists r h' w,
    returns (ArrayVariable_from_variable sample_packed sample_cppname
               VivadoArrayVariable 2%nat AP_types "partition")
      (tensor_store VivadoArrayVariable [10; 8]) r h'
    /\ r <> 2%nat
    /\ tensor_store VivadoArrayVariable [10; 8] !! r = None
    /\ h' !! r = Some (OTensor w)
    /\ v_class w = VivadoArrayVariable
    /\ h' !! 2%nat = Some (OTensor (tensor_x VivadoArrayVariable [10; 8])).
Proof.
  apply (array_from_variable_rewraps sample_packed sample_cppname
           VivadoArrayVariable AP_types "partition"
           (tensor_store VivadoArrayVariable [10; 8]) 2%nat
           (tensor_x VivadoArrayVariable [10; 8]) in_t);
    [reflexivity | by apply tensor_store_well_formed | reflexivity].
Defined.

(** The other four [from_variable] constructors test the class of their
    input first and return an instance of their own class as it is: same
    location, same store. *)
Theorem guarded_from_variable_idempotent (PackedType_fields : Z -> Z -> PackedFields)
    (cppname_of : string -> string) h l o :
  h !! l = Some o ->
  (tensor_class_of o = Some StructMemberVariable ->
   forall tc pragma struct_name,
     returns (StructMemberVariable_from_variable PackedType_fields cppname_of
                l tc pragma struct_name) h l h)
  /\ (tensor_class_of o = Some StreamVariable ->
      forall tc n_pack depth,
        returns (StreamVariable_from_variable PackedType_fields cppname_of
                   l tc n_pack depth) h l h)
  /\ (weight_class_of o = Some StaticWeightVariable ->
      forall tc,
        returns (StaticWeightVariable_from_variable PackedType_fields cppname_of l tc)
          h l h)
  /\ (weight_class_of o = Some BramWeightVariable ->
      returns (BramWeightVariable_from_variable cppname_of l) h l h).
Proof.
  intros Hl. repeat split; intros Hcls; intros;
    (eapply returns_bind; [by apply returns_load |]);
    rewrite Hcls; reflexivity.
Qed.

Lemma guarded_from_variable_idempotent_witness :
  returns (StreamVariable_from_variable sample_packed sample_cppname 2%nat AP_types 1 0)
    (tensor_store StreamVariable [10; 8]) 2%nat (tensor_store StreamVariable [10; 8]).
Proof.
  apply (guarded_from_variable_idempotent sample_packed sample_cppname
           (tensor_store StreamVariable [10; 8]) 2%nat
           (OTensor (tensor_x StreamVariable [10; 8])) eq_refl);
    reflexivity.
Defined.

(** *** The default queue depth *)

Lemma wrap64_mul_l a d : wrap64 (wrap64 a * d) = wrap64 (a * d).
Proof.
  unfold wrap64. f_equal.
  rewrite (Z.mod_eq (a + 2 ^ 63) (2 ^ 64)) by lia.
  replace ((a + 2 ^ 63 - 2 ^ 64 * ((a + 2 ^ 63) / 2 ^ 64) - 2 ^ 63) * d + 2 ^ 63)
    with (a * d + 2 ^ 63 + (- ((a + 2 ^ 63) / 2 ^ 64) * d) * 2 ^ 64) by lia.
  apply Z.mod_add. lia.
Qed.

Lemma wrap64_small z : - 2 ^ 63 <= z < 2 ^ 63 -> wrap64 z = z.
Proof. intros Hz. unfold wrap64. rewrite Z.mod_small; lia. Qed.

Lemma np_prod_from acc shape :
  fold_left (fun acc d => wrap64 (acc * d)) shape (wrap64 acc)
  = wrap64 (acc * product shape).
Proof.
  revert acc. induction shape as [|d shape IH]; intros acc; simpl.
  - by rewrite Z.mul_1_r.
  - rewrite wrap64_mul_l, IH. f_equal. lia.
Qed.

(** [np.prod] is the product reduced to 64 bits. *)
Lemma np_prod_wrap shape : np_prod shape = wrap64 (product shape).
Proof.
  unfold np_prod. change 1 with (wrap64 1) at 1.
  rewrite np_prod_from. f_equal. lia.
Qed.

Lemma default_depth_exact shape d :
  0 <= product shape < 2 ^ 63 -> 0 < d ->
  default_depth shape d = product shape / d.
Proof.
  intros Hp Hd. unfold default_depth, np_floor_divide.
  rewrite np_prod_wrap, (wrap64_small (product shape)) by lia.
  destruct (Z.eqb_spec d 0) as [-> | _]; [lia |].
  apply wrap64_small.
  pose proof (Z.div_pos (product shape) d).
  pose proof (Z.div_le_upper_bound (product shape) d (product shape)).
  nia.
Qed.


(** C7 (as amended). Constructing a stream variable from a well-formed
    tensor variable of non-empty shape succeeds.  Without an explicit depth
    (depth argument 0) the depth is [np.prod(shape) // shape[-1]]: the product
    divided by the last dimension, rounded down, whenever the last dimension
    is positive and the product fits a signed 64-bit integer, and [0] (no
    failure) when the last dimension is zero. *)
Theorem stream_default_depth (PackedType_fields : Z -> Z -> PackedFields)
    (cppname_of : string -> string) tc n_pack h tensor_var v ty d :
  well_formed tc h tensor_var v ty ->
  last (v_shape v) = Some d ->
  exists self h',
    returns (StreamVariable_init PackedType_fields cppname_of tensor_var tc n_pack 0)
      h self h'
    /\ v_pragma self = Some (PragmaStream (default_depth (v_shape v) d))
    /\ (0 < d -> 0 <= product (v_shape v) < 2 ^ 63 ->
        v_pragma self = Some (PragmaStream (product (v_shape v) / d)))
    /\ (d = 0 -> v_pragma self = Some (PragmaStream 0)).
Proof.
  intros Hwf Hd.
  destruct (StreamVariable_init_ok PackedType_fields cppname_of tc n_pack 0
              _ _ _ _ _ Hwf Hd) as (precision' & ext & Hinit).
  eexists _, _. split; [exact Hinit |]. simpl.
  split; [reflexivity |].
  split.
  - intros Hpos Hfit. by rewrite default_depth_exact.
  - intros ->. reflexivity.
Qed.

Lemma stream_default_depth_witness :
  exists self h',
    returns (StreamVariable_init sample_packed sample_cppname 2%nat AP_types 1 0)
      (tensor_store TensorVariable [10; 8]) self h'
    /\ v_pragma self = Some (PragmaStream 10)
    /\ (0 < 8 -> 0 <= product [10; 8] < 2 ^ 63 ->
        v_pragma self = Some (PragmaStream (product [10; 8] / 8)))
    /\ (8 = 0 -> v_pragma self = Some (PragmaStream 0)).
Proof.
  apply (stream_default_depth sample_packed sample_cppname AP_types 1
           (tensor_store TensorVariable [10; 8]) 2%nat
           (tensor_x TensorVariable [10; 8]) in_t 8);
    [by apply tensor_store_well_formed | reflexivity].
Defined.

(** C7 as stated fails: over shape [[10; 0]], whose last dimension is
    zero, construction without an explicit depth does not fail, whatever the
    library functions are; it yields depth 0. *)
Lemma zero_last_dimension_constructs :
  ~ (exists (PackedType_fields : Z -> Z -> PackedFields)
            (cppname_of : string -> string) e h',
        raises (StreamVariable_init PackedType_fields cppname_of 2%nat AP_types 1 0)
          (tensor_store TensorVariable [10; 0]) e h')
  /\ exists self h',
       returns (StreamVariable_init sample_packed sample_cppname 2%nat AP_types 1 0)
         (tensor_store TensorVariable [10; 0]) self h'
       /\ v_pragma self = Some (PragmaStream 0).
Proof.
  split.
  - intros (pf & cpp & e & h' & Hraise). vm_compute in Hraise. discriminate.
  - eexists _, _. split; reflexivity.
Qed.

Example default_depth_10_8 : default_depth [10; 8] 8 = 10.
Proof. reflexivity. Qed.

(** *** Struct members *)

(** C8 (as amended). Constructing a struct-member variable from a
    well-formed tensor variable fails with the assertion error when the
    struct name is absent ([None]).  With any struct name, the empty string
    included, it succeeds: the variable's name is the struct name, a dot and
    the member name, and the declaration uses the bare member name. *)
Theorem struct_member_requires_struct_name
    (PackedType_fields : Z -> Z -> PackedFields) (cppname_of : string -> string)
    tc pragma h tensor_var v ty :
  well_formed tc h tensor_var v ty ->
  (exists h',
     raises (StructMemberVariable_init PackedType_fields cppname_of
               tensor_var tc pragma None) h
       (AssertionError struct_name_message) h')
  /\ (forall struct_name,
      exists self h',
        returns (StructMemberVariable_init PackedType_fields cppname_of
                   tensor_var tc pragma (Some struct_name)) h self h'
        /\ v_name self = struct_name ++ "." ++ v_name v
        /\ v_member_name self = Some (v_name v)
        /\ forall name_suffix as_reference,
             returns (StructMemberVariable_definition_cpp self name_suffix as_reference)
               h'
               (t_name ty ++ " " ++ v_name v ++ name_suffix
                ++ "[" ++ join "*" (v_dim_names v) ++ "]") h').
Proof.
  intros Hwf.
  destruct (ArrayVariable_init_ok PackedType_fields cppname_of StructMemberVariable
              tc pragma _ _ _ _ Hwf) as (precision' & ext & Hinit).
  split.
  - eexists. unfold StructMemberVariable_init.
    eapply raises_bind_r; [exact Hinit | reflexivity].
  - intros struct_name. eexists _, _. split.
    { unfold StructMemberVariable_init.
      eapply returns_bind; [exact Hinit | apply returns_ret]. }
    split; [reflexivity |]. split; [reflexivity |].
    intros name_suffix as_reference. unfold StructMemberVariable_definition_cpp.
    eapply returns_bind; [apply returns_load_type, lookup_snoc |].
    eapply returns_bind; [apply returns_attr |].
    reflexivity.
Qed.

Lemma struct_member_requires_struct_name_witness :
  (exists h',
     raises (StructMemberVariable_init sample_packed sample_cppname
               2%nat AP_types "hls_register" None)
       (tensor_store TensorVariable [10; 8])
       (AssertionError struct_name_message) h')
  /\ (forall struct_name,
      exists self h',
        returns (StructMemberVariable_init sample_packed sample_cppname
                   2%nat AP_types "hls_register" (Some struct_name))
          (tensor_store TensorVariable [10; 8]) self h'
        /\ v_name self = struct_name ++ ".x"
        /\ v_member_name self = Some "x"
        /\ forall name_suffix as_reference,
             returns (StructMemberVariable_definition_cpp self name_suffix as_reference)
               h' ("in_t x" ++ name_suffix ++ "[N_A*N_B]") h').
Proof.
  apply (struct_member_requires_struct_name sample_packed sample_cppname
           AP_types "hls_register" (tensor_store TensorVariable [10; 8]) 2%nat
           (tensor_x TensorVariable [10; 8]) in_t).
  by apply tensor_store_well_formed.
Defined.

(** C8 as stated fails: with the empty string as struct name construction
    does not fail, whatever the library functions are; the variable is then
    named [.x]. *)
Lemma empty_struct_name_constructs :
  ~ (exists (PackedType_fields : Z -> Z -> PackedFields)
            (cppname_of : string -> string) e h',
        raises (StructMemberVariable_init PackedType_fields cppname_of
                  2%nat AP_types "hls_register" (Some ""))
          (tensor_store TensorVariable [10; 8]) e h')
  /\ exists self h',
       returns (StructMemberVariable_init sample_packed sample_cppname
                  2%nat AP_types "hls_register" (Some ""))
         (tensor_store TensorVariable [10; 8]) self h'
       /\ v_name self = ".x"
       /\ v_struct_name self = Some "".
Proof.
  split.
  - intros (pf & cpp & e & h' & Hraise). vm_compute in Hraise. discriminate.
  - eexists _, _. repeat split; reflexivity.
Qed.

(** *** Stream declarations *)

(** C9 (as amended). For a stream variable constructed from a well-formed
    tensor variable of non-empty shape, the reference form is
    [hls::stream<T> &N S] and the declaration form [hls::stream<T> N S("N")]
    (no spaces around [S]), where [T] is the name of the variable's type, [N]
    the variable's [cppname] and [S] the suffix. *)
Theorem stream_declaration_forms (PackedType_fields : Z -> Z -> PackedFields)
    (cppname_of : string -> string) tc n_pack depth h tensor_var v ty d :
  well_formed tc h tensor_var v ty ->
  last (v_shape v) = Some d ->
  exists self h',
    returns (StreamVariable_init PackedType_fields cppname_of tensor_var tc
               n_pack depth) h self h'
    /\ forall name_suffix,
         returns (StreamVariable_definition_cpp self name_suffix true) h'
           ("hls::stream<" ++ t_name ty ++ "> &" ++ cppname_of (v_name v)
            ++ name_suffix) h'
         /\ returns (StreamVariable_definition_cpp self name_suffix false) h'
              ("hls::stream<" ++ t_name ty ++ "> " ++ cppname_of (v_name v)
               ++ name_suffix ++ "(" ++ dquote ++ cppname_of (v_name v)
               ++ dquote ++ ")") h'.
Proof.
  intros Hwf Hd.
  destruct (StreamVariable_init_ok PackedType_fields cppname_of tc n_pack depth
              _ _ _ _ _ Hwf Hd) as (precision' & ext & Hinit).
  eexists _, _. split; [exact Hinit |].
  intros name_suffix. unfold StreamVariable_definition_cpp.
  split; (eapply returns_bind; [apply returns_load_type, lookup_snoc | reflexivity]).
Qed.

Lemma stream_declaration_forms_witness :
  exists self h',
    returns (StreamVariable_init sample_packed sample_cppname 2%nat AP_types 1 0)
      (tensor_store TensorVariable [10; 8]) self h'
    /\ forall name_suffix,
         returns (StreamVariable_definition_cpp self name_suffix true) h'
           ("hls::stream<in_t> &x" ++ name_suffix) h'
         /\ returns (StreamVariable_definition_cpp self name_suffix false) h'
              ("hls::stream<in_t> x" ++ name_suffix ++ "(" ++ dquote ++ "x"
               ++ dquote ++ ")") h'.
Proof.
  apply (stream_declaration_forms sample_packed sample_cppname AP_types 1 0
           (tensor_store TensorVariable [10; 8]) 2%nat
           (tensor_x TensorVariable [10; 8]) in_t 8);
    [by apply tensor_store_well_formed | reflexivity].
Defined.

(** C9 as stated fails: whatever the library functions are, the forms of
    the stream variable constructed over [x] are not [stream<in_t> &x] and
    [stream<in_t> x("x")]: the code writes the [hls::] namespace in front. *)
Lemma stream_forms_carry_namespace :
  ~ (exists (PackedType_fields : Z -> Z -> PackedFields)
            (cppname_of : string -> string) self h',
        returns (StreamVariable_init PackedType_fields cppname_of 2%nat AP_types 1 0)
          (tensor_store TensorVariable [10; 8]) self h'
        /\ (fst (StreamVariable_definition_cpp self "" true h')
            = inr ("stream<in_t> &" ++ v_cppname self ++ "")
            \/ fst (StreamVariable_definition_cpp self "" false h')
               = inr ("stream<in_t> " ++ v_cppname self ++ ""
                      ++ "(" ++ dquote ++ v_cppname self ++ dquote ++ ")"))).
Proof.
  intros (pf & cpp & self & h' & Hinit & Hforms).
  vm_compute in Hinit. injection Hinit as <- <-.
  destruct Hforms as [H | H]; vm_compute in H; discriminate.
Qed.


(** * Further properties *)

(** ** What a call may do to the store *)



Lemma extends_lookup h h' l o : extends h h' -> h !! l = Some o -> h' !! l = Some o.
Proof. intros [ext ->]. apply lookup_extend. Qed.













Section ConstructorsAllocate.

Variable PackedType_fields : Z -> Z -> PackedFields.
Variable cppname_of : string -> string.







End ConstructorsAllocate.

(** ** Rendering reads, it does not write *)









(** ** The type converter *)

Lemma raises_bind_l {A B} (m : M A) (k : A -> M B) h e h1 :
  raises m h e h1 -> raises (bind m k) h e h1.
Proof. unfold raises, bind. intros ->. reflexivity. Qed.

(** For every plain named type over a recognized precision, converting it
    with a dialect type converter and rendering the result gives
    [typedef P name;] and a line feed, [P] being the dialect text of the
    converted precision. *)
Theorem plain_declaration_text (precision_str : PrecisionObj -> string)
    (PackedType_fields : Z -> Z -> PackedFields) tc h t ty p :
  is_dialect (precision_converter tc) = true ->
  h !! t = Some (OType ty) ->
  t_class ty = NamedType ->
  h !! t_precision ty = Some (OPrecision p) ->
  recognized p = true ->
  exists t' h' text,
    returns (HLSTypeConverter_convert PackedType_fields tc t) h t' h'
    /\ precision_definition_cpp (dialect_object (precision_converter tc) p)
       = inr text
    /\ returns (type_definition_cpp precision_str t') h'
         ("typedef " ++ text ++ " " ++ t_name ty ++ ";" ++ nl) h'.
Proof.
  intros Hd Ht Hcls Hp Hrec.
  destruct (dialect_object_renders _ p Hd Hrec) as [text Hw].
  pose proof (convert_recognized _ _ _ _ Hd Hp Hrec) as Hconv.
  eexists _, _, text. split; [| split; [exact Hw |]].
  - unfold HLSTypeConverter_convert.
    eapply returns_bind; [eapply returns_load; exact Ht |]. simpl. rewrite Hcls. simpl.
    unfold HLSType_from_type.
    eapply returns_bind; [exact Hconv |].
    apply returns_alloc.
  - unfold type_definition_cpp.
    eapply returns_bind; [apply returns_load_type, lookup_snoc |]. simpl.
    unfold HLSType_definition_cpp. simpl.
    eapply returns_bind;
      [eapply returns_precision_cpp; [apply lookup_extend, lookup_snoc | exact Hw] |].
    reflexivity.
Qed.

Lemma plain_declaration_text_witness :
  exists t' h' text,
    returns (HLSTypeConverter_convert sample_packed AC_types 1%nat)
      (tensor_store TensorVariable [10; 8]) t' h'
    /\ precision_definition_cpp (dialect_object ACTypeConverter fixed_16_6) = inr text
    /\ returns (type_definition_cpp sample_str t') h'
         ("typedef " ++ text ++ " in_t;" ++ nl) h'.
Proof.
  apply (plain_declaration_text sample_str sample_packed AC_types
           (tensor_store TensorVariable [10; 8]) 1%nat in_t fixed_16_6);
    reflexivity.
Defined.

(** The type converter given an object that is not a named type (a
    precision, a variable) raises [Unknown type: <class name>] and creates
    nothing. *)
Theorem type_convert_rejects_other_objects
    (PackedType_fields : Z -> Z -> PackedFields) tc h l o :
  h !! l = Some o ->
  (forall t, o <> OType t) ->
  raises (HLSTypeConverter_convert PackedType_fields tc l) h
    (Exception ("Unknown type: " ++ obj_class_name o)) h.
Proof.
  intros Hl Ho. unfold HLSTypeConverter_convert.
  eapply raises_bind_r; [by apply returns_load |].
  destruct o; try reflexivity. by destruct (Ho t).
Qed.

Lemma type_convert_rejects_other_objects_witness :
  raises (HLSTypeConverter_convert sample_packed AP_types 0%nat)
    (tensor_store TensorVariable [10; 8])
    (Exception "Unknown type: FixedPrecisionType")
    (tensor_store TensorVariable [10; 8]).
Proof.
  apply (type_convert_rejects_other_objects sample_packed AP_types
           (tensor_store TensorVariable [10; 8]) 0%nat (OPrecision fixed_16_6));
    [reflexivity | discriminate].
Defined.

(** When the precision of a named type is one the precision converter
    rejects, the type converter fails with the precision converter's own
    exception, whatever the shape of the type, and creates no wrapper: the
    store is unchanged.  With the base [PrecisionTypeConverter] every
    conversion of a named type raises [NotImplementedError]. *)
Theorem type_convert_propagates_precision_error
    (PackedType_fields : Z -> Z -> PackedFields) tc h t ty o :
  h !! t = Some (OType ty) ->
  h !! t_precision ty = Some o ->
  (is_dialect (precision_converter tc) = true ->
   abstract_obj o = false -> tagged (precision_converter tc) o = false ->
   raises (HLSTypeConverter_convert PackedType_fields tc t) h
     (Exception ("Cannot convert precision type to "
                 ++ dialect_prefix (precision_converter tc) ++ ": "
                 ++ obj_class_name o)) h)
  /\ (precision_converter tc = PrecisionTypeConverter ->
      raises (HLSTypeConverter_convert PackedType_fields tc t) h
        NotImplementedError h).
Proof.
  intros Ht Ho. split.
  - intros Hd Ha Htag.
    pose proof (convert_unsupported _ _ _ _ Hd Ho Ha Htag) as Hraise.
    unfold HLSTypeConverter_convert.
    eapply raises_bind_r; [eapply returns_load; exact Ht |]. simpl.
    destruct (t_class ty); simpl; by apply raises_bind_l.
  - intros Hbase. unfold HLSTypeConverter_convert.
    eapply raises_bind_r; [eapply returns_load; exact Ht |]. simpl.
    destruct (t_class ty); simpl; apply raises_bind_l; rewrite Hbase; reflexivity.
Qed.

Lemma type_convert_propagates_precision_error_witness :
  raises (HLSTypeConverter_convert sample_packed AP_types 1%nat) foreign_store
    (Exception "Cannot convert precision type to AP: ACIntegerPrecisionType")
    foreign_store.
Proof.
  apply (type_convert_propagates_precision_error sample_packed AP_types foreign_store
           1%nat (new_named NamedType "in_t" 0%nat)
           (OPrecision (new_int_like ACIntegerPrecisionType 8 true))
           eq_refl eq_refl); reflexivity.
Defined.

(** Converting an already converted plain, exponent or compressed type again
    with the same dialect creates one new wrapper and nothing else: it has
    the class, the name and the index precision of the input and holds the
    very same precision object, so the two render the same text; but it is
    another object than the input. *)
Theorem type_reconversion_copies_wrapper
    (PackedType_fields : Z -> Z -> PackedFields) tc h t ty o :
  is_dialect (precision_converter tc) = true ->
  h !! t = Some (OType ty) ->
  t_packed ty = None ->
  (t_class ty = HLSType /\ t_index_precision ty = None
   \/ t_class ty = HLSExponentType /\ t_index_precision ty = None
   \/ t_class ty = HLSCompressedType /\ is_Some (t_index_precision ty)) ->
  h !! t_precision ty = Some o ->
  tagged (precision_converter tc) o = true ->
  returns (HLSTypeConverter_convert PackedType_fields tc t) h
    (length h) (h ++ [OType ty])%list
  /\ length h <> t.
Proof.
  intros Hd Ht Hpk Hcls Ho Htag.
  pose proof (convert_tagged _ _ _ _ Hd Ho Htag) as Hconv.
  split; [| apply lookup_lt_Some in Ht; lia].
  unfold HLSTypeConverter_convert.
  eapply returns_bind; [eapply returns_load; exact Ht |]. simpl.
  destruct ty as [cls name precision index packed]. simpl in *. subst packed.
  destruct Hcls as [[-> ->] | [[-> ->] | [-> [i ->]]]]; simpl.
  - unfold HLSType_from_type. eapply returns_bind; [exact Hconv |]. apply returns_alloc.
  - unfold HLSExponentType_from_type.
    eapply returns_bind; [exact Hconv |]. apply returns_alloc.
  - unfold HLSCompressedType_from_type.
    eapply returns_bind; [exact Hconv |].
    eapply returns_bind; [apply returns_attr |]. apply returns_alloc.
Qed.

Lemma type_reconversion_copies_wrapper_witness :
  returns (HLSTypeConverter_convert sample_packed AP_types 1%nat) converted_plain_store
    2%nat (converted_plain_store ++ [OType (new_named HLSType "in_t" 0%nat)])%list
  /\ 2%nat <> 1%nat.
Proof.
  apply (type_reconversion_copies_wrapper sample_packed AP_types converted_plain_store
           1%nat (new_named HLSType "in_t" 0%nat) (OPrecision ap_fixed_16_6));
    try reflexivity.
  left. split; reflexivity.
Defined.

(** ** Variable representations *)

Section VariableTexts.

Variable PackedType_fields : Z -> Z -> PackedFields.
Variable cppname_of : string -> string.

(** An array variable constructed from a well-formed tensor variable renders,
    as a dense-port array, [T N S[D]] and, as a struct-port array, the same
    followed by a space and the pragma: [T] is the name of the variable's
    type, [N] its [cppname], [S] the suffix and [D] the dimension names
    joined by [*].  [as_reference] changes nothing. *)
Theorem array_declaration_forms cls tc pragma h tensor_var v ty :
  well_formed tc h tensor_var v ty ->
  exists r h' self,
    returns (ArrayVariable_from_variable PackedType_fields cppname_of cls
               tensor_var tc pragma) h r h'
    /\ h' !! r = Some (OTensor self)
    /\ forall name_suffix as_reference,
         returns (VivadoArrayVariable_definition_cpp self name_suffix as_reference) h'
           (t_name ty ++ " " ++ cppname_of (v_name v) ++ name_suffix
            ++ "[" ++ join "*" (v_dim_names v) ++ "]") h'
         /\ returns (QuartusArrayVariable_definition_cpp self name_suffix as_reference)
              h'
              (t_name ty ++ " " ++ cppname_of (v_name v) ++ name_suffix
               ++ "[" ++ join "*" (v_dim_names v) ++ "] " ++ pragma) h'.
Proof.
  intros Hwf.
  destruct (ArrayVariable_init_ok PackedType_fields cppname_of cls tc pragma
              _ _ _ _ Hwf) as (precision' & ext & Hinit).
  eexists _, _, _. split.
  { unfold ArrayVariable_from_variable.
    eapply returns_bind; [exact Hinit | apply returns_alloc]. }
  split; [apply lookup_snoc |].
  intros name_suffix as_reference. split.
  - unfold VivadoArrayVariable_definition_cpp.
    eapply returns_bind;
      [apply returns_load_type, lookup_extend, lookup_snoc | reflexivity].
  - unfold QuartusArrayVariable_definition_cpp.
    eapply returns_bind; [apply returns_load_type, lookup_extend, lookup_snoc |].
    eapply returns_bind; reflexivity.
Qed.

(** Constructing a stream variable from a tensor variable whose shape is
    empty raises [IndexError] (from [shape[-1]]). *)
Theorem stream_empty_shape_raises tc n_pack depth h tensor_var v ty :
  h !! tensor_var = Some (OTensor v) ->
  h !! v_type v = Some (OType ty) ->
  v_shape v = [] ->
  exists h',
    raises (StreamVariable_init PackedType_fields cppname_of tensor_var tc
              n_pack depth) h IndexError h'.
Proof.
  intros Hv Hty Hshape. eexists. unfold StreamVariable_init.
  eapply raises_bind_r; [by apply returns_load_tensor |].
  eapply raises_bind_r; [by apply returns_load_type |].
  eapply raises_bind_r.
  { unfold TensorVariable_init. eapply returns_bind; [apply returns_alloc |].
    apply returns_ret. }
  eapply raises_bind_r; [apply returns_load_type, lookup_snoc |].
  simpl v_shape. rewrite Hshape. reflexivity.
Qed.

(** A stream variable constructed with an explicit depth (any value but 0)
    keeps that depth: nothing is divided, so the shape's last dimension may
    be zero.  Its type is a new packed wrapper named like the source type,
    whose packed fields come from the last dimension and the pack factor
    through the [PackedType] constructor, twice. *)
Theorem stream_explicit_depth tc pack depth h tensor_var v ty d :
  well_formed tc h tensor_var v ty ->
  last (v_shape v) = Some d ->
  depth <> 0 ->
  exists self h' packed,
    returns (StreamVariable_init PackedType_fields cppname_of tensor_var tc
               pack depth) h self h'
    /\ v_pragma self = Some (PragmaStream depth)
    /\ h' !! v_type self = Some (OType packed)
    /\ t_class packed = HLSPackedType
    /\ t_name packed = t_name ty
    /\ t_packed packed
       = Some (PackedType_fields (n_elem (PackedType_fields d pack))
                 (n_pack (PackedType_fields d pack))).
Proof.
  intros Hwf Hd Hdepth.
  destruct (StreamVariable_init_ok PackedType_fields cppname_of tc pack depth
              _ _ _ _ _ Hwf Hd) as (precision' & ext & Hinit).
  eexists _, _, _. split; [exact Hinit |]. simpl.
  split; [by destruct (Z.eqb_spec depth 0) |].
  split; [apply lookup_snoc | done].
Qed.

(** A static weight variable constructed from a well-formed weight variable
    of another class records the class name of its source and renders
    [T N[L]]: [T] is the name of its type, [N] its [cppname] and [L] the
    data length.  Neither the suffix nor [as_reference] changes the text. *)
Theorem static_weight_declaration tc h weight_var w ty :
  well_formed_weight tc h weight_var w ty ->
  w_class w <> StaticWeightVariable ->
  exists r h' self,
    returns (StaticWeightVariable_from_variable PackedType_fields cppname_of
               weight_var tc) h r h'
    /\ h' !! r = Some (OWeight self)
    /\ r <> weight_var
    /\ w_class self = StaticWeightVariable
    /\ w_weight_class self = Some (weight_class_name (w_class w))
    /\ w_data self = w_data w
    /\ forall name_suffix as_reference,
         returns (StaticWeightVariable_definition_cpp self name_suffix as_reference) h'
           (t_name ty ++ " " ++ cppname_of (w_name w)
            ++ "[" ++ str_int (Z.of_nat (length (w_data w))) ++ "]") h'.
Proof.
  intros (Hw & Hty & o & Ho & Hc) Hcls.
  set (nt := OType (new_named NamedType (t_name ty) (t_precision ty))).
  destruct (convert_plain PackedType_fields tc (h ++ [nt])%list (length h) (t_name ty)
              (t_precision ty) o (lookup_snoc h nt) (lookup_extend _ _ _ _ Ho) Hc)
    as (precision' & ext & Hconv).
  pose proof (lookup_lt_Some _ _ _ Hw) as Hlt.
  eexists _, _, _. split.
  { unfold StaticWeightVariable_from_variable.
    eapply returns_bind; [by apply returns_load |]. simpl.
    case_decide as He; [simpl in He; congruence |].
    eapply returns_bind; [| apply returns_alloc].
    unfold StaticWeightVariable_init.
    eapply returns_bind.
    { unfold load_weight. eapply returns_bind; [by apply returns_load | reflexivity]. }
    eapply returns_bind; [by apply returns_load_type |].
    eapply returns_bind.
    { unfold WeightVariable_init. eapply returns_bind; [apply returns_alloc |].
      apply returns_ret. }
    eapply returns_bind; [exact Hconv |].
    apply returns_ret. }
  split; [apply lookup_snoc |].
  split; [rewrite !length_app; lia |].
  do 3 (split; [reflexivity |]).
  intros name_suffix as_reference. unfold StaticWeightVariable_definition_cpp.
  eapply returns_bind;
    [apply returns_load_type, lookup_extend, lookup_snoc | reflexivity].
Qed.

(** A BRAM weight variable constructed from a weight variable of another
    class is a new object with the name, the data and the quantizer of its
    source; its type is a new plain [NamedType] over the very precision
    object of the source: no precision is converted, whatever it is. *)
Theorem bram_keeps_precision h weight_var w ty :
  h !! weight_var = Some (OWeight w) ->
  h !! w_type w = Some (OType ty) ->
  w_class w <> BramWeightVariable ->
  exists self,
    returns (BramWeightVariable_from_variable cppname_of weight_var) h
      (S (length h))
      (h ++ [OType (new_named NamedType (t_name ty) (t_precision ty));
             OWeight self])%list
    /\ w_class self = BramWeightVariable
    /\ w_name self = w_name w
    /\ w_data self = w_data w
    /\ w_quantizer self = w_quantizer w
    /\ w_type self = length h.
Proof.
  intros Hw Hty Hcls. eexists. split.
  { unfold BramWeightVariable_from_variable.
    eapply returns_bind; [by apply returns_load |]. simpl.
    case_decide as He; [simpl in He; congruence |].
    eapply returns_bind.
    { unfold load_weight. eapply returns_bind; [by apply returns_load | reflexivity]. }
    eapply returns_bind; [by apply returns_load_type |].
    eapply returns_bind.
    { unfold WeightVariable_init. eapply returns_bind; [apply returns_alloc |].
      apply returns_ret. }
    unfold returns, alloc. rewrite length_app, <- app_assoc. simpl.
    rewrite Nat.add_1_r. reflexivity. }
  done.
Qed.

End VariableTexts.

Lemma array_declaration_forms_witness :
  exists r h' self,
    returns (ArrayVariable_from_variable sample_packed sample_cppname
               QuartusArrayVariable 2%nat AC_types "hls_register")
      (tensor_store TensorVariable [10; 8]) r h'
    /\ h' !! r = Some (OTensor self)
    /\ forall name_suffix as_reference,
         returns (VivadoArrayVariable_definition_cpp self name_suffix as_reference) h'
           ("in_t x" ++ name_suffix ++ "[N_A*N_B]") h'
         /\ returns (QuartusArrayVariable_definition_cpp self name_suffix as_reference)
              h' ("in_t x" ++ name_suffix ++ "[N_A*N_B] hls_register") h'.
Proof.
  apply (array_declaration_forms sample_packed sample_cppname QuartusArrayVariable
           AC_types "hls_register" (tensor_store TensorVariable [10; 8]) 2%nat
           (tensor_x TensorVariable [10; 8]) in_t).
  by apply tensor_store_well_formed.
Defined.

Lemma stream_empty_shape_raises_witness :
  exists h',
    raises (StreamVariable_init sample_packed sample_cppname 2%nat AP_types 1 0)
      (tensor_store TensorVariable []) IndexError h'.
Proof.
  apply (stream_empty_shape_raises sample_packed sample_cppname AP_types 1 0
           (tensor_store TensorVariable []) 2%nat (tensor_x TensorVariable []) in_t);
    reflexivity.
Defined.

Lemma stream_explicit_depth_witness :
  exists self h' packed,
    returns (StreamVariable_init sample_packed sample_cppname 2%nat AP_types 2 5)
      (tensor_store TensorVariable [10; 0]) self h'
    /\ v_pragma self = Some (PragmaStream 5)
    /\ h' !! v_type self = Some (OType packed)
    /\ t_class packed = HLSPackedType
    /\ t_name packed = "in_t"
    /\ t_packed packed = Some (sample_packed 0 2).
Proof.
  apply (stream_explicit_depth sample_packed sample_cppname AP_types 2 5
           (tensor_store TensorVariable [10; 0]) 2%nat
           (tensor_x TensorVariable [10; 0]) in_t 0);
    [by apply tensor_store_well_formed | reflexivity | discriminate].
Defined.

Lemma weight_store_well_formed tc cls :
  is_dialect (precision_converter tc) = true ->
  well_formed_weight tc (weight_store cls) 2%nat (weight_w cls) in_t.
Proof.
  intros Hd. split; [reflexivity |]. split; [reflexivity |].
  exists (OPrecision fixed_16_6). split; [reflexivity |].
  unfold convertible. rewrite Hd. apply orb_true_r.
Qed.

Lemma static_weight_declaration_witness :
  exists r h' self,
    returns (StaticWeightVariable_from_variable sample_packed sample_cppname
               2%nat AP_types) (weight_store WeightVariable) r h'
    /\ h' !! r = Some (OWeight self)
    /\ r <> 2%nat
    /\ w_class self = StaticWeightVariable
    /\ w_weight_class self = Some "WeightVariable"
    /\ w_data self = [1; 2; 3; 4; 5; 6]
    /\ forall name_suffix as_reference,
         returns (StaticWeightVariable_definition_cpp self name_suffix as_reference) h'
           "in_t w2[6]" h'.
Proof.
  apply (static_weight_declaration sample_packed sample_cppname AP_types
           (weight_store WeightVariable) 2%nat (weight_w WeightVariable) in_t);
    [by apply weight_store_well_formed | discriminate].
Defined.

Lemma bram_keeps_precision_witness :
  exists self,
    returns (BramWeightVariable_from_variable sample_cppname 2%nat)
      (weight_store WeightVariable) 4%nat
      (weight_store WeightVariable ++ [OType in_t; OWeight self])%list
    /\ w_class self = BramWeightVariable
    /\ w_name self = "w2"
    /\ w_data self = [1; 2; 3; 4; 5; 6]
    /\ w_quantizer self = Some "q"
    /\ w_type self = 3%nat.
Proof.
  apply (bram_keeps_precision sample_cppname (weight_store WeightVariable) 2%nat
           (weight_w WeightVariable) in_t); [reflexivity | reflexivity | discriminate].
Defined.

(** ** Dialect leaves *)

Lemma dialect_text_recognized c h l p text :
  is_dialect c = true -> h !! l = Some (OPrecision p) -> recognized p = true ->
  precision_definition_cpp (dialect_object c p) = inr text ->
  dialect_text c l h = inr text.
Proof.
  intros Hc Hl Hp Htext. unfold dialect_text.
  erewrite (returns_bind (convert c l)); [reflexivity | by apply convert_recognized |].
  eapply returns_precision_cpp; [apply lookup_snoc | exact Htext].
Qed.

(** Converting and rendering an Integer or an Exponent precision of width
    [w] gives [ap_int<w>], or [ap_uint<w>] when unsigned, in the bounded-width
    dialect and [ac_int<w, true>] or [ac_int<w, false>] in the algorithmic
    one: an Exponent renders as the Integer of its width and signedness.  An
    Xnor precision gives [ap_uint<1>] and [ac_int<1, false>] whatever width
    and signedness the source object carries. *)
Theorem integer_like_text h l p :
  h !! l = Some (OPrecision p) ->
  (p_class p = IntegerPrecisionType \/ p_class p = ExponentPrecisionType ->
   dialect_text APTypeConverter l h
   = inr ("ap_" ++ (if signed p then "" else "u") ++ "int<"
          ++ str_int (width p) ++ ">")
   /\ dialect_text ACTypeConverter l h
      = inr ("ac_int<" ++ str_int (width p) ++ ", "
             ++ str_bool_lower (signed p) ++ ">"))
  /\ (p_class p = XnorPrecisionType ->
      dialect_text APTypeConverter l h = inr "ap_uint<1>"
      /\ dialect_text ACTypeConverter l h = inr "ac_int<1, false>").
Proof.
  intros Hl. destruct p as [cls w s f]. simpl. split.
  - intros [-> | ->]; split;
      (eapply dialect_text_recognized; [reflexivity | exact Hl | reflexivity |]);
      destruct s; reflexivity.
  - intros ->; split;
      (eapply dialect_text_recognized; [reflexivity | exact Hl | reflexivity |]);
      reflexivity.
Qed.

Lemma integer_like_text_witness :
  (dialect_text APTypeConverter 0%nat
     [OPrecision (new_int_like ExponentPrecisionType 7 false)] = inr "ap_uint<7>"
   /\ dialect_text ACTypeConverter 0%nat
        [OPrecision (new_int_like ExponentPrecisionType 7 false)]
      = inr "ac_int<7, false>").
Proof.
  apply (integer_like_text [OPrecision (new_int_like ExponentPrecisionType 7 false)]
           0%nat (new_int_like ExponentPrecisionType 7 false) eq_refl).
  right. reflexivity.
Defined.



(** An unset optional argument of a fixed-point precision does not hold its
    place: with a saturation mode and no rounding mode the saturation token
    comes third, right after the integer bits, and with saturation bits alone
    the number comes third.  With all three set they come in the order
    rounding, saturation, bits. *)
Theorem fixed_options_close_ranks (w i b : Z) (s : bool) (rm sm : string) :
  precision_definition_cpp (new_fixed APFixedPrecisionType w i s None (Some sm) None)
  = inr ("ap_" ++ (if s then "" else "u") ++ "fixed<"
         ++ str_int w ++ "," ++ str_int i ++ ",AP_" ++ sm ++ ">")
  /\ precision_definition_cpp (new_fixed APFixedPrecisionType w i s None None (Some b))
     = inr ("ap_" ++ (if s then "" else "u") ++ "fixed<"
            ++ str_int w ++ "," ++ str_int i ++ "," ++ str_int b ++ ">")
  /\ precision_definition_cpp
       (new_fixed APFixedPrecisionType w i s (Some rm) (Some sm) (Some b))
     = inr ("ap_" ++ (if s then "" else "u") ++ "fixed<"
            ++ str_int w ++ "," ++ str_int i ++ ",AP_" ++ rm ++ ",AP_" ++ sm
            ++ "," ++ str_int b ++ ">")
  /\ precision_definition_cpp (new_fixed ACFixedPrecisionType w i s None (Some sm) None)
     = inr ("ac_fixed<" ++ str_int w ++ "," ++ str_int i ++ ","
            ++ str_bool_lower s ++ ",AC_" ++ sm ++ ">")
  /\ precision_definition_cpp
       (new_fixed ACFixedPrecisionType w i s (Some rm) (Some sm) (Some b))
     = inr ("ac_fixed<" ++ str_int w ++ "," ++ str_int i ++ ","
            ++ str_bool_lower s ++ ",AC_" ++ rm ++ ",AC_" ++ sm
            ++ "," ++ str_int b ++ ">").
Proof.
  destruct s; repeat split; cbv - [String.append str_int];
    rewrite ?append_assoc; reflexivity.
Qed.

(** *** Texts tell precisions apart *)

Lemma list_ascii_app (a b : string) :
  list_ascii_of_string (a ++ b)
  = (list_ascii_of_string a ++ list_ascii_of_string b)%list.
Proof.
  induction a as [|x a IH]; [reflexivity |].
  change (x :: list_ascii_of_string (a ++ b)
          = x :: (list_ascii_of_string a ++ list_ascii_of_string b)%list).
  by rewrite IH.
Qed.

Lemma list_ascii_inj (a b : string) :
  list_ascii_of_string a = list_ascii_of_string b -> a = b.
Proof.
  intros H. rewrite <- (string_of_list_ascii_of_string a),
              <- (string_of_list_ascii_of_string b). by rewrite H.
Qed.

Lemma append_inv_tail (a b c : string) : a ++ c = b ++ c -> a = b.
Proof.
  intros H. apply list_ascii_inj.
  apply (f_equal list_ascii_of_string) in H. rewrite !list_ascii_app in H.
  by apply app_inv_tail in H.
Qed.

(** Two texts with different last words are different. *)
Lemma tails_clash (a b : string) : a ++ ", true>" <> b ++ ", false>".
Proof.
  intros H. apply (f_equal list_ascii_of_string) in H.
  rewrite !list_ascii_app in H. apply (f_equal (@rev _)) in H.
  rewrite !rev_app_distr in H. discriminate H.
Qed.

(** The text of an integer leaf determines the width and the signedness, in
    either dialect: two integer precisions that render the same text have the
    same parameters. *)
Theorem integer_text_determines_parameters (p q : PrecisionObj) :
  APIntegerPrecisionType_definition_cpp p = APIntegerPrecisionType_definition_cpp q
  \/ ACIntegerPrecisionType_definition_cpp p = ACIntegerPrecisionType_definition_cpp q ->
  width p = width q /\ signed p = signed q.
Proof.
  unfold APIntegerPrecisionType_definition_cpp, ACIntegerPrecisionType_definition_cpp,
    str_int.
  intros [H | H].
  - apply (inj (String.app "ap_")) in H.
    destruct (signed p), (signed q); simpl negb in H; cbv iota in H.
    + apply (inj (String.app "")), (inj (String.app "int<")), append_inv_tail in H.
      by apply (inj pretty) in H.
    + discriminate H.
    + discriminate H.
    + apply (inj (String.app "u")), (inj (String.app "int<")), append_inv_tail in H.
      by apply (inj pretty) in H.
  - apply (inj (String.app "ac_int<")) in H.
    destruct (signed p), (signed q); unfold str_bool_lower in H.
    + change (pretty (width p) ++ ", true>" = pretty (width q) ++ ", true>") in H.
      apply append_inv_tail in H. by apply (inj pretty) in H.
    + change (pretty (width p) ++ ", true>" = pretty (width q) ++ ", false>") in H.
      by apply tails_clash in H.
    + change (pretty (width p) ++ ", false>" = pretty (width q) ++ ", true>") in H.
      symmetry in H. by apply tails_clash in H.
    + change (pretty (width p) ++ ", false>" = pretty (width q) ++ ", false>") in H.
      apply append_inv_tail in H. by apply (inj pretty) in H.
Qed.

Lemma integer_text_determines_parameters_witness :
  width (new_int_like APIntegerPrecisionType 8 true)
  = width (new_int_like APExponentPrecisionType 8 true)
  /\ signed (new_int_like APIntegerPrecisionType 8 true)
     = signed (new_int_like APExponentPrecisionType 8 true).
Proof.
  apply (integer_text_determines_parameters
           (new_int_like APIntegerPrecisionType 8 true)
           (new_int_like APExponentPrecisionType 8 true)).
  left. reflexivity.
Defined.

(** The two dialects never render the same text: when two precision objects
    render to one text, both are of the bounded-width dialect or both are of
    the algorithmic one. *)
Theorem dialects_never_share_text (p q : PrecisionObj) (text : string) :
  precision_definition_cpp p = inr text ->
  precision_definition_cpp q = inr text ->
  tagged APTypeConverter (OPrecision p) = tagged APTypeConverter (OPrecision q)
  /\ tagged ACTypeConverter (OPrecision p) = tagged ACTypeConverter (OPrecision q).
Proof.
  unfold precision_definition_cpp, tagged, APIntegerPrecisionType_definition_cpp,
    ACIntegerPrecisionType_definition_cpp, APFixedPrecisionType_definition_cpp,
    ACFixedPrecisionType_definition_cpp.
  destruct p as [pc pw ps pf], q as [qc qw qs qf]. simpl.
  destruct pc; try discriminate; destruct qc; try discriminate;
    try (split; reflexivity);
    destruct pf, qf; try discriminate;
    intros [= <-] [= H]; discriminate H.
Qed.

Lemma dialects_never_share_text_witness :
  tagged APTypeConverter (OPrecision (new_xnor APXnorPrecisionType))
  = tagged APTypeConverter (OPrecision (new_int_like APIntegerPrecisionType 1 false))
  /\ tagged ACTypeConverter (OPrecision (new_xnor APXnorPrecisionType))
     = tagged ACTypeConverter (OPrecision (new_int_like APIntegerPrecisionType 1 false)).
Proof.
  apply (dialects_never_share_text (new_xnor APXnorPrecisionType)
           (new_int_like APIntegerPrecisionType 1 false) "ap_uint<1>"); reflexivity.
Defined.

(** ** Dispatch of the type converter *)

(** The type converter dispatches on the shape of its input, subclasses
    included: a packed, compressed, exponent or plain named type, converted or
    not, gives a new object of the packed, compressed, exponent or plain
    wrapper class, with the name of the input. *)
Theorem type_convert_chooses_wrapper (PackedType_fields : Z -> Z -> PackedFields)
    tc h t ty o :
  h !! t = Some (OType ty) ->
  has_class_fields ty = true ->
  h !! t_precision ty = Some o ->
  convertible (precision_converter tc) o = true ->
  exists t' h' wrapper,
    returns (HLSTypeConverter_convert PackedType_fields tc t) h t' h'
    /\ h !! t' = None
    /\ h' !! t' = Some (OType wrapper)
    /\ t_class wrapper = wrapper_class (t_class ty)
    /\ t_name wrapper = t_name ty.
Proof.
  intros Ht Hf Ho Hc.
  destruct (convert_ok _ _ _ _ Ho Hc) as (precision' & ext & o' & Hconv & _ & _).
  unfold has_class_fields in Hf.
  assert (Hfresh : forall x : Obj, h !! length (h ++ ext)%list = None).
  { intros _. apply lookup_ge_None. rewrite length_app. lia. }
  destruct (t_class ty) eqn:Hcls; simpl in Hf;
    try (apply bool_decide_eq_true in Hf; destruct Hf as [x Hx]);
    eexists (length (h ++ ext)%list), _, _;
    (split;
     [ unfold HLSTypeConverter_convert;
       (eapply returns_bind; [eapply returns_load; exact Ht |]); simpl;
       rewrite Hcls; simpl;
       unfold HLSPackedType_from_type, HLSCompressedType_from_type,
         HLSExponentType_from_type, HLSType_from_type;
       (eapply returns_bind; [exact Hconv |]);
       rewrite ?Hx;
       first [ apply returns_alloc
             | eapply returns_bind; [apply returns_attr | apply returns_alloc] ]
     | split; [apply (Hfresh o) | split; [apply lookup_snoc | done]] ]).
Qed.

Lemma type_convert_chooses_wrapper_witness :
  exists t' h' wrapper,
    returns (HLSTypeConverter_convert sample_packed AP_types 1%nat)
      (converted_packed_store true) t' h'
    /\ converted_packed_store true !! t' = None
    /\ h' !! t' = Some (OType wrapper)
    /\ t_class wrapper = HLSPackedType
    /\ t_name wrapper = "layer2_t".
Proof.
  apply (type_convert_chooses_wrapper sample_packed AP_types
           (converted_packed_store true) 1%nat (packed_32_4 HLSPackedType true)
           (OPrecision ap_fixed_16_6)); reflexivity.
Defined.

(** ** The default depth is the product of the leading dimensions *)

Lemma product_snoc lead d : product (lead ++ [d]) = product lead * d.
Proof.
  induction lead as [|x lead IH]; simpl; [lia |]. rewrite IH. lia.
Qed.

(** The division of the default depth leaves no remainder: over a shape with
    a positive last dimension whose product fits a signed 64-bit integer, a
    stream variable constructed without an explicit depth has as depth the
    product of the dimensions before the last. *)
Theorem stream_depth_is_leading_product (PackedType_fields : Z -> Z -> PackedFields)
    (cppname_of : string -> string) tc n_pack h tensor_var v ty lead d :
  well_formed tc h tensor_var v ty ->
  v_shape v = (lead ++ [d])%list ->
  0 < d ->
  0 <= product (v_shape v) < 2 ^ 63 ->
  exists self h',
    returns (StreamVariable_init PackedType_fields cppname_of tensor_var tc n_pack 0)
      h self h'
    /\ v_pragma self = Some (PragmaStream (product lead)).
Proof.
  intros Hwf Hshape Hd Hfit.
  assert (Hlast : last (v_shape v) = Some d) by (rewrite Hshape; apply last_snoc).
  destruct (StreamVariable_init_ok PackedType_fields cppname_of tc n_pack 0
              _ _ _ _ _ Hwf Hlast) as (precision' & ext & Hinit).
  eexists _, _. split; [exact Hinit |]. simpl.
  rewrite default_depth_exact by done.
  rewrite Hshape, product_snoc, Z.div_mul by lia. reflexivity.
Qed.

Lemma stream_depth_is_leading_product_witness :
  exists self h',
    returns (StreamVariable_init sample_packed sample_cppname 2%nat AP_types 1 0)
      (tensor_store TensorVariable [4; 5; 8]) self h'
    /\ v_pragma self = Some (PragmaStream (product [4; 5])).
Proof.
  apply (stream_depth_is_leading_product sample_packed sample_cppname AP_types 1
           (tensor_store TensorVariable [4; 5; 8]) 2%nat
           (tensor_x TensorVariable [4; 5; 8]) in_t [4; 5] 8);
    [by apply tensor_store_well_formed | reflexivity | lia
    | vm_compute; split; [discriminate | reflexivity]].
Defined.
